(** * PyCamPermanent: the Witty Pi schedule writer and reader of [pycam/io_py.py]

    A shallow embedding of [write_witty_schedule_file] and
    [read_witty_schedule_file], with the parts of Python's [datetime] and
    [str] they rest on, followed by the properties of the schedule they
    compute, render and read back.

    Conventions of the embedding:
    - a [datetime] carries whole seconds (its microsecond field is 0), so a
      [timedelta] is a number of seconds in [Z] and [total_seconds()] is an
      integral float, kept as that integer;
    - the floats [num_hours_*] and [num_mins_*] are kept as exact rationals;
      [rem / 60] with [0 <= rem < 3600] is within 2^-47 of its float, and
      its ties ([rem mod 60 = 30]) are exact in binary, so ['{:.0f}'] prints
      the same integer for both;
    - the file system is a finite map from path to contents;
      [datetime.datetime.now()] is an argument of the writer.

    The second part does the same for the other text files of the module:
    the PCS line of [save_pcs_line] and [load_pcs_line] and the crontab
    file of [write_script_crontab] and [read_script_crontab]. *)

From Stdlib Require Import ZArith QArith Lia DecimalString DecimalPos Ascii String.
From stdpp Require Import base option list strings gmap.

Local Open Scope Z_scope.
Local Arguments String.append : simpl nomatch.

(** ** Python values and exceptions *)

Inductive exn : Type :=
  | ValueError
  | IndexError
  | AttributeError
  | FileNotFoundError.

#[global] Instance exn_eq_dec : EqDecision exn.
Proof. solve_decision. Defined.

Inductive result (A : Type) : Type :=
  | Ok (a : A)
  | Raise (e : exn).
Arguments Ok {A} a.
Arguments Raise {A} e.

#[global] Instance result_ret : MRet result := fun _ a => Ok a.
#[global] Instance result_bind : MBind result := fun _ _ f r =>
  match r with
  | Ok a => f a
  | Raise e => Raise e
  end.

(** [try: body except e: handler] *)
Definition try_except {A} (body : result A) (e : exn) (handler : result A) : result A :=
  match body with
  | Ok a => Ok a
  | Raise e' => if decide (e' = e) then handler else Raise e'
  end.

(** ** Python [str] operations used by the two functions *)

Module PyStr.

Definition LF : ascii := "010"%char.
Definition nl : string := String LF EmptyString.

Fixpoint startswith (s prefix : string) {struct prefix} : bool :=
  match prefix, s with
  | EmptyString, _ => true
  | String _ _, EmptyString => false
  | String p prefix', String c s' => Ascii.eqb c p && startswith s' prefix'
  end.

(** [needle in hay] *)
Fixpoint contains (needle hay : string) : bool :=
  startswith hay needle ||
  match hay with
  | EmptyString => false
  | String _ hay' => contains needle hay'
  end.

(** [s.split(sep)] for a one-character separator, as at every call site. *)
Fixpoint split (sep : ascii) (s : string) : list string :=
  match s with
  | EmptyString => [EmptyString]
  | String c s' =>
      if Ascii.eqb c sep then EmptyString :: split sep s'
      else match split sep s' with
           | [] => [String c EmptyString]
           | w :: ws => String c w :: ws
           end
  end.

(** [l[i]] *)
Definition index {A} (l : list A) (i : nat) : result A :=
  match l !! i with
  | Some a => Ok a
  | None => Raise IndexError
  end.

(** Iterating a file opened with [newline='\n']: lines keep their
    terminator, the last one may lack it. *)
Fixpoint readlines (s : string) : list string :=
  match s with
  | EmptyString => []
  | String c s' =>
      if Ascii.eqb c LF then nl :: readlines s'
      else match readlines s' with
           | [] => [String c EmptyString]
           | l :: ls => String c l :: ls
           end
  end.

End PyStr.

(** ** [int(str)] in base 10 *)

Module PyInt.

(** [Py_ISSPACE]: tab, line feed, vertical tab, form feed, carriage return
    and space, which is the library's [Ascii.is_space]. *)
Definition is_space (c : ascii) : bool := Ascii.is_space c.

(** The value of a decimal digit. *)
Definition digit_value (c : ascii) : option Z := Z.of_nat <$> Ascii.is_nat c.

Fixpoint lstrip (s : string) : string :=
  match s with
  | String c s' => if is_space c then lstrip s' else s
  | EmptyString => EmptyString
  end.

(** Digits up to the end of the literal or its trailing white space; an
    underscore is allowed between two digits. [after_digit] tells whether
    the previous character was a digit. *)
Fixpoint digits (acc : Z) (after_digit : bool) (s : string) : option Z :=
  match s with
  | EmptyString => if after_digit then Some acc else None
  | String c s' =>
      match digit_value c with
      | Some d => digits (10 * acc + d) true s'
      | None =>
          if Ascii.eqb c "_" then
            if after_digit then
              match s' with
              | String c' _ =>
                  match digit_value c' with
                  | Some _ => digits acc false s'
                  | None => None
                  end
              | EmptyString => None
              end
            else None
          else if is_space c then
            if after_digit then
              match lstrip s' with EmptyString => Some acc | _ => None end
            else None
          else None
      end
  end.

Definition parse (s : string) : option Z :=
  match lstrip s with
  | String "-" s' => Z.opp <$> digits 0 false s'
  | String "+" s' => digits 0 false s'
  | s' => digits 0 false s'
  end.

(** [int(s)] *)
Definition int (s : string) : result Z :=
  match parse s with
  | Some z => Ok z
  | None => Raise ValueError
  end.

End PyInt.

(** ** Python [datetime] and [timedelta], at whole seconds

    The helpers carry the names they have in CPython's [_pydatetime]
    ([_is_leap], [_days_before_year], [_ymd2ord], [_cmp], ...). *)

Module PyDatetime.

Record datetime : Type := mkdatetime {
  year : Z; month : Z; day : Z;
  hour : Z; minute : Z; second : Z
}.

(** A [timedelta] is its [total_seconds()]. *)
Definition timedelta : Type := Z.
Definition total_seconds (d : timedelta) : Z := d.
Definition timedelta_hours (h : Z) : timedelta := h * 3600.

Definition is_leap (y : Z) : bool :=
  (y mod 4 =? 0) && (negb (y mod 100 =? 0) || (y mod 400 =? 0)).

Definition days_before_year (y0 : Z) : Z :=
  let y := y0 - 1 in y * 365 + y / 4 - y / 100 + y / 400.

Definition DAYS_IN_MONTH : list Z := [-1; 31; 28; 31; 30; 31; 30; 31; 31; 30; 31; 30; 31].
Definition DAYS_BEFORE_MONTH : list Z :=
  [-1; 0; 31; 59; 90; 120; 151; 181; 212; 243; 273; 304; 334].

Definition days_in_month (y m : Z) : Z :=
  if (m =? 2) && is_leap y then 29 else DAYS_IN_MONTH !!! Z.to_nat m.

Definition days_before_month (y m : Z) : Z :=
  DAYS_BEFORE_MONTH !!! Z.to_nat m + (if (2 <? m) && is_leap y then 1 else 0).

Definition ymd2ord (y m d : Z) : Z :=
  days_before_year y + days_before_month y m + d.

Definition toordinal (t : datetime) : Z := ymd2ord (year t) (month t) (day t).

(** The constructor's range checks. *)
Definition valid (t : datetime) : Prop :=
  1 <= year t <= 9999 /\ 1 <= month t <= 12 /\
  1 <= day t <= days_in_month (year t) (month t) /\
  0 <= hour t < 24 /\ 0 <= minute t < 60 /\ 0 <= second t < 60.

Definition secs (t : datetime) : Z := second t + minute t * 60 + hour t * 3600.

(** [a - b] *)
Definition sub (a b : datetime) : timedelta :=
  (toordinal a - toordinal b) * 86400 + (secs a - secs b).

(** [a < b], [a > b]: the field tuples compared in order. *)
Definition cmp (a b : datetime) : comparison :=
  match year a ?= year b with
  | Eq => match month a ?= month b with
          | Eq => match day a ?= day b with
                  | Eq => match hour a ?= hour b with
                          | Eq => match minute a ?= minute b with
                                  | Eq => second a ?= second b
                                  | c => c
                                  end
                          | c => c
                          end
                  | c => c
                  end
          | c => c
          end
  | c => c
  end.

Definition lt (a b : datetime) : bool :=
  match cmp a b with Lt => true | _ => false end.
Definition gt (a b : datetime) : bool :=
  match cmp a b with Gt => true | _ => false end.

(** Zero-padded decimal fields of [strftime], for fields in range. [%Y]
    is padded to four digits as the Python documentation has it; for years
    from 1000 on every C library agrees. *)
Definition digit_char (d : Z) : ascii :=
  match d with
  | 0 => "0" | 1 => "1" | 2 => "2" | 3 => "3" | 4 => "4"
  | 5 => "5" | 6 => "6" | 7 => "7" | 8 => "8" | _ => "9"
  end%char.

Definition pad2 (n : Z) : string :=
  String (digit_char (n / 10)) (String (digit_char (n mod 10)) EmptyString).

Definition pad4 (n : Z) : string :=
  String (digit_char (n / 1000)) (String (digit_char (n / 100 mod 10)) (pad2 (n mod 100))).

(** [t.strftime('%H:%M')] *)
Definition strftime_HM (t : datetime) : string :=
  pad2 (hour t) +:+ ":" +:+ pad2 (minute t).

(** [t.strftime('%H:%M:%S')] *)
Definition strftime_HMS (t : datetime) : string :=
  pad2 (hour t) +:+ ":" +:+ pad2 (minute t) +:+ ":" +:+ pad2 (second t).

(** [t.strftime('%Y-%m-%d')] *)
Definition strftime_Ymd (t : datetime) : string :=
  pad4 (year t) +:+ "-" +:+ pad2 (month t) +:+ "-" +:+ pad2 (day t).

End PyDatetime.

(** ** [pycam/io_py.py] *)

Module IoPy.
Import PyStr PyDatetime.

(** [divmod(x, y)] on integral floats, [y > 0]. *)
Definition divmod (x y : Z) : Z * Z := (x / y, x mod y).

(** round-half-even of a rational, the integer ['{:.0f}'] prints *)
Definition round_half_even (q : Q) : Z :=
  let n := Qnum q in
  let d := Z.pos (Qden q) in
  let fl := n / d in
  let r := n mod d in
  match 2 * r ?= d with
  | Lt => fl
  | Gt => fl + 1
  | Eq => if Z.even fl then fl else fl + 1
  end.

(** ['{:.0f}'.format(q)]; a negative value that rounds to zero keeps its
    sign. *)
Definition format_0f (q : Q) : string :=
  let z := round_half_even q in
  if (Qnum q <? 0) && (z =? 0) then "-0"
  else NilZero.string_of_int (Z.to_int z).

(** The pair [(num_hours, num_mins)] of a [timedelta]:
    [num_hours, rem = divmod(delt.total_seconds(), 60*60)] and
    [num_mins = rem / 60]. *)
Definition hours_mins (delt : timedelta) : Q * Q :=
  let '(num_hours, rem) := divmod (total_seconds delt) (60 * 60) in
  (inject_Z num_hours, (inject_Z rem / 60)%Q).

(** The single-window branch, lines 342-364: the pairs
    [(num_hours_on, num_mins_on)] and [(num_hours_off, num_mins_off)]. *)
Definition single_window (time_on time_off : datetime) : (Q * Q) * (Q * Q) :=
  if 0 <? sub time_off time_on then
    let time_delt_on := sub time_off time_on in
    let time_delt_off := timedelta_hours 24 - time_delt_on in
    (hours_mins time_delt_on, hours_mins time_delt_off)
  else if sub time_off time_on <? 0 then
    let time_delt_off := sub time_on time_off in
    let time_delt_on := timedelta_hours 24 - time_delt_off in
    (hours_mins time_delt_on, hours_mins time_delt_off)
  else
    ((24%Q, 0%Q), (0%Q, 0%Q)).

(** Lines 383-400: [(time_start_1, time_stop_1, time_start_2, time_stop_2)]. *)
Definition arrange (time_on time_off time_on_2 time_off_2 : datetime)
  : datetime * datetime * datetime * datetime :=
  if lt time_on time_on_2 then
    if gt time_off time_on then (time_on, time_off, time_on_2, time_off_2)
    else (time_on, time_off_2, time_on_2, time_off)
  else
    if gt time_off_2 time_on_2 then (time_on_2, time_off_2, time_on, time_off)
    else (time_on_2, time_off, time_on, time_off_2).

(** Lines 409-433: the pairs [(num_hours_on_1, num_mins_on_1)],
    [(num_hours_off_1, num_mins_off_1)], [(num_hours_on_2, num_mins_on_2)]
    and [(num_hours_off_2, num_mins_off_2)]. *)
Definition dual_window (time_start_1 time_stop_1 time_start_2 time_stop_2 : datetime)
  : (Q * Q) * (Q * Q) * (Q * Q) * (Q * Q) :=
  let time_delt_1 := sub time_stop_1 time_start_1 in
  let on_1 := hours_mins time_delt_1 in
  let time_delt_2 := sub time_start_2 time_stop_1 in
  let off_1 := hours_mins time_delt_2 in
  if gt time_stop_2 time_start_2 then
    let time_delt_3 := sub time_stop_2 time_start_2 in
    let on_2 := hours_mins time_delt_3 in
    let time_delt_4 := timedelta_hours 24 - (time_delt_1 + time_delt_2 + time_delt_3) in
    let off_2 := hours_mins time_delt_4 in
    (on_1, off_1, on_2, off_2)
  else
    let time_delt_3 := sub time_start_1 time_stop_2 in
    let off_2 := hours_mins time_delt_3 in
    let time_delt_4 := timedelta_hours 24 - (time_delt_1 + time_delt_2 + time_delt_3) in
    let on_2 := hours_mins time_delt_4 in
    (on_1, off_1, on_2, off_2).

(** A segment is one [ON]/[OFF] line of the file before formatting: its
    keyword with the hours and minutes handed to [format]. *)
Inductive kind : Type := ON | OFF.

Definition segment : Type := kind * (Q * Q).

Definition kind_str (k : kind) : string :=
  match k with ON => "ON" | OFF => "OFF" end.

(** ['ON H{:.0f} M{:.0f}\n'.format(h, m)] and its OFF twin *)
Definition segment_line (sg : segment) : string :=
  kind_str sg.1 +:+ " H" +:+ format_0f sg.2.1 +:+ " M" +:+ format_0f sg.2.2 +:+ nl.

(** The two segments written at lines 375-376. *)
Definition single_segments (time_on time_off : datetime) : list segment :=
  let '(hm_on, hm_off) := single_window time_on time_off in
  [(ON, hm_on); (OFF, hm_off)].

(** The four segments written at lines 445-448. *)
Definition dual_segments (time_on time_off time_on_2 time_off_2 : datetime)
  : list segment :=
  let '(time_start_1, time_stop_1, time_start_2, time_stop_2) :=
    arrange time_on time_off time_on_2 time_off_2 in
  let '(on_1, off_1, on_2, off_2) :=
    dual_window time_start_1 time_stop_1 time_start_2 time_stop_2 in
  [(ON, on_1); (OFF, off_1); (ON, on_2); (OFF, off_2)].

Definition title_line : string :=
  "# Raspberry Pi start-up/shut-down schedule script" +:+ nl.
Definition end_line : string := "END 2038-01-01 12:00:00" +:+ nl.
Definition begin_line (date_now_str time_str : string) : string :=
  "BEGIN " +:+ date_now_str +:+ " " +:+ time_str +:+ nl.

(** The [f.write] calls of the block at lines 366-376, in order. *)
Definition single_chunks (date_now time_on time_off : datetime) : list string :=
  let time_on_str := strftime_HMS time_on in
  let date_now_str := strftime_Ymd date_now in
  [ title_line;
    "# on_time=" +:+ strftime_HM time_on +:+ nl;
    "# off_time=" +:+ strftime_HM time_off +:+ nl;
    begin_line date_now_str time_on_str;
    end_line ]
  ++ (segment_line <$> single_segments time_on time_off).

(** The [f.write] calls of the block at lines 435-448, in order. *)
Definition dual_chunks (date_now time_on time_off time_on_2 time_off_2 : datetime)
  : list string :=
  let date_now_str := strftime_Ymd date_now in
  let time_start_1 := (arrange time_on time_off time_on_2 time_off_2).1.1.1 in
  [ title_line;
    "# on_time=" +:+ strftime_HM time_on +:+ nl;
    "# off_time=" +:+ strftime_HM time_off +:+ nl;
    "# on_time_2=" +:+ strftime_HM time_on_2 +:+ nl;
    "# off_time_2=" +:+ strftime_HM time_off_2 +:+ nl;
    begin_line date_now_str (strftime_HMS time_start_1);
    end_line ]
  ++ (segment_line <$> dual_segments time_on time_off time_on_2 time_off_2).

(** What a file opened with ['w'] holds once the block is left. *)
Definition written (chunks : list string) : string :=
  foldr String.append EmptyString chunks.

(** [write_witty_schedule_file(filename, time_on, time_off, time_on_2,
    time_off_2)]; [date_now] is [datetime.datetime.now()], [fs] the file
    system before the call, the result the file system after it. *)
Definition write_witty_schedule_file (date_now : datetime) (filename : string)
    (time_on time_off : datetime) (time_on_2 time_off_2 : option datetime)
    (fs : gmap string string) : gmap string string :=
  match time_off_2, time_on_2 with
  | Some off_2, Some on_2 =>
      <[filename := written (dual_chunks date_now time_on time_off on_2 off_2)]> fs
  | _, _ =>
      <[filename := written (single_chunks date_now time_on time_off)]> fs
  end.

(** The local variables of [read_witty_schedule_file]. *)
Record locals : Type := mklocals {
  on_hour : option Z; on_min : option Z;
  off_hour : option Z; off_min : option Z;
  on_hour_2 : option Z; on_min_2 : option Z;
  off_hour_2 : option Z; off_min_2 : option Z
}.

Definition init : locals :=
  mklocals None None None None None None None None.

(** [v = line.split('=')[1].split('\n')[0]] followed by
    [h, m = [int(x) for x in v.split(':')]] *)
Definition hour_min (line : string) : result (Z * Z) :=
  rhs ← index (split "=" line) 1;
  v ← index (split LF rhs) 0;
  xs ← mapM PyInt.int (split ":" v);
  match xs with
  | [h; m] => Ok (h, m)
  | _ => Raise ValueError
  end.

(** The body of the loop at lines 460-471. *)
Definition read_line (line : string) (st : locals) : result locals :=
  if contains "on_time=" line then
    '(h, m) ← hour_min line;
    Ok (mklocals (Some h) (Some m) (off_hour st) (off_min st)
          (on_hour_2 st) (on_min_2 st) (off_hour_2 st) (off_min_2 st))
  else if contains "off_time=" line then
    '(h, m) ← hour_min line;
    Ok (mklocals (on_hour st) (on_min st) (Some h) (Some m)
          (on_hour_2 st) (on_min_2 st) (off_hour_2 st) (off_min_2 st))
  else if contains "on_time_2=" line then
    '(h, m) ← hour_min line;
    Ok (mklocals (on_hour st) (on_min st) (off_hour st) (off_min st)
          (Some h) (Some m) (off_hour_2 st) (off_min_2 st))
  else if contains "off_time_2=" line then
    '(h, m) ← hour_min line;
    Ok (mklocals (on_hour st) (on_min st) (off_hour st) (off_min st)
          (on_hour_2 st) (on_min_2 st) (Some h) (Some m))
  else Ok st.

(** [for line in f: ...] *)
Fixpoint read_lines (lines : list string) (st : locals) : result locals :=
  match lines with
  | [] => Ok st
  | line :: rest => st' ← read_line line st; read_lines rest st'
  end.

Definition pair_opt : Type := option Z * option Z.

(** What the function hands back: the tuple of four pairs, or [None]
    when control falls off the end after the [except] branch printed. *)
Inductive returned : Type :=
  | Tuple (on off on_2 off_2 : pair_opt)
  | PrintedNone.

(** [read_witty_schedule_file(filename)] on the file system [fs]. *)
Definition read_witty_schedule_file (filename : string) (fs : gmap string string)
  : result returned :=
  match fs !! filename with
  | None => Raise FileNotFoundError
  | Some text =>
      st ← read_lines (readlines text) init;
      try_except
        (Ok (Tuple (on_hour st, on_min st) (off_hour st, off_min st)
               (on_hour_2 st, on_min_2 st) (off_hour_2 st, off_min_2 st)))
        AttributeError
        (Ok PrintedNone)
  end.

End IoPy.

(** ** Notions the statements are written with *)

Module Sched.
Import PyStr PyDatetime IoPy.

(** Two datetimes that differ in their time of day only. *)
Definition same_date (a b : datetime) : Prop :=
  year a = year b /\ month a = month b /\ day a = day b.

(** The duration a segment stands for, in seconds:
    [num_hours] hours and [num_mins] minutes. *)
Definition seconds (hm : Q * Q) : Q := (3600 * hm.1 + 60 * hm.2)%Q.

(** The duration a segment line shows once formatted, in minutes. *)
Definition printed_minutes (hm : Q * Q) : Z :=
  60 * round_half_even hm.1 + round_half_even hm.2.

Definition durations (sgs : list segment) : Q :=
  foldr (fun sg acc => (seconds sg.2 + acc)%Q) 0%Q sgs.

(** The second [t] of the day lies in the daily window that opens at
    [on] and closes at [off]; a window closing at or before its opening
    runs through midnight. *)
Definition within (on off : datetime) (t : Z) : Prop :=
  if secs on <? secs off then secs on <= t < secs off
  else secs on <= t \/ t < secs off.

(** How long the window stays open. *)
Definition window_length (on off : datetime) : Z := (secs off - secs on) mod 86400.

Definition disjoint_windows (on off on_2 off_2 : datetime) : Prop :=
  forall t, 0 <= t < 86400 -> ~ (within on off t /\ within on_2 off_2 t).

(** The character [c] occurs in [s]. *)
Fixpoint occurs (c : ascii) (s : string) : bool :=
  match s with
  | EmptyString => false
  | String c' s' => Ascii.eqb c' c || occurs c s'
  end.

(** Every character of [s] is in the class [P]. *)
Fixpoint chars_in (P : ascii -> bool) (s : string) : bool :=
  match s with
  | EmptyString => true
  | String c s' => P c && chars_in P s'
  end.

Definition is_digit (c : ascii) : bool :=
  match PyInt.digit_value c with Some _ => true | None => false end.

(** Digits and the minus sign: the characters of a formatted number. *)
Definition is_numeric (c : ascii) : bool := is_digit c || Ascii.eqb c "-".

(** A line of a text file: a body free of line feeds, then the line feed. *)
Definition is_line (l : string) : Prop :=
  exists body, l = body +:+ nl /\ occurs LF body = false.

(** [s] is the numeral of [n] in [w] decimal digits, zeros in front: it
    has [w] characters, all of them digits, and [int] reads it as [n]. *)
Definition decimal (w : nat) (s : string) (n : Z) : Prop :=
  String.length s = w /\ chars_in is_digit s = true /\ PyInt.int s = Ok n.

(** A time of day on the day the examples use, and a moment for [now]. *)
Definition at_time (h m : Z) : datetime := mkdatetime 2020 1 1 h m 0.
Definition a_now : datetime := mkdatetime 2021 3 14 15 9 26.

(** A schedule file whose [on_time] comment is missing, and one whose
    [on_time] value is not [HH:MM]. *)
Definition text_without_on_time : string :=
  title_line
  +:+ "# off_time=18:00" +:+ nl
  +:+ "BEGIN 2021-03-14 06:00:00" +:+ nl
  +:+ end_line
  +:+ "ON H12 M0" +:+ nl
  +:+ "OFF H12 M0" +:+ nl.

Definition text_with_bad_on_time : string :=
  title_line
  +:+ "# on_time=06.00" +:+ nl
  +:+ "# off_time=18:00" +:+ nl
  +:+ "BEGIN 2021-03-14 06:00:00" +:+ nl
  +:+ end_line
  +:+ "ON H12 M0" +:+ nl
  +:+ "OFF H12 M0" +:+ nl.

(** The four keys of the header comments. *)
Definition keys : list string :=
  ["on_time="; "off_time="; "on_time_2="; "off_time_2="].

(** The line holds one of the keys: the loop body reads a value from it. *)
Definition has_key (line : string) : bool :=
  existsb (fun key => contains key line) keys.

(** No line of the text holds the key. *)
Definition key_absent (key text : string) : Prop :=
  Forall (fun line => contains key line = false) (readlines text).

End Sched.

(** ** More of Python's [str] and text files, for the other readers *)

Module PyText.
Import PyStr.

Definition CR : ascii := "013"%char.

(** What a file opened for reading with the default [newline=None] hands
    over: every ["\r\n"] and every lone ["\r"] has become ["\n"]. *)
Fixpoint universal_newlines (s : string) : string :=
  match s with
  | EmptyString => EmptyString
  | String c s' =>
      if Ascii.eqb c CR then
        match s' with
        | String c' _ =>
            if Ascii.eqb c' LF then universal_newlines s'
            else String LF (universal_newlines s')
        | EmptyString => String LF EmptyString
        end
      else String c (universal_newlines s')
  end.

(** [c.isspace()] on ASCII: the six characters of [Ascii.is_space] and the
    four separators 0x1c to 0x1f. *)
Definition isspace (c : ascii) : bool :=
  Ascii.is_space c ||
  match c with
  | "028" | "029" | "030" | "031" => true
  | _ => false
  end%char.

(** [s.split()]: the maximal runs of characters that are not white space. *)
Fixpoint split_ws (s : string) : list string :=
  match s with
  | EmptyString => []
  | String c s' =>
      if isspace c then split_ws s'
      else match s' with
           | EmptyString => [String c EmptyString]
           | String c' _ =>
               if isspace c' then String c EmptyString :: split_ws s'
               else match split_ws s' with
                    | w :: ws => String c w :: ws
                    | [] => [String c EmptyString]
                    end
           end
  end.

(** [s.split(sep)] for a separator of one character or more, scanning from
    the left; [skip] counts the characters of a separator just met that
    are still to be passed over. *)
Fixpoint split_str_from (sep : string) (skip : nat) (s : string) : list string :=
  match s with
  | EmptyString => [EmptyString]
  | String c s' =>
      match skip with
      | S k => split_str_from sep k s'
      | O =>
          if startswith s sep then
            EmptyString :: split_str_from sep (String.length sep - 1) s'
          else match split_str_from sep 0 s' with
               | w :: ws => String c w :: ws
               | [] => [String c EmptyString]
               end
      end
  end.

Definition split_str (sep s : string) : list string := split_str_from sep 0 s.

(** [l[-1]] *)
Definition index_last {A} (l : list A) : result A :=
  match last l with
  | Some a => Ok a
  | None => Raise IndexError
  end.

(** [str(z)] and ['{}'.format(z)] of an [int] *)
Definition str_int (z : Z) : string := NilZero.string_of_int (Z.to_int z).

End PyText.

(** ** [save_pcs_line], [load_pcs_line] and the light dilution wrappers

    The file is written in text mode on a POSIX system, where a line feed
    is written as it is, and read back with universal newlines;
    [os.path.exists] is the lookup in the file system. *)

Module Pcs.
Import PyStr PyText IoPy.

(** The arguments of pyplis' [LineOnImage]: the end points, as exact
    values of the floats or ints they are, and three strings. What the
    constructor does with them is pyplis' affair. *)
Record LineOnImage : Type := mkLineOnImage {
  x0 : Q; y0 : Q; x1 : Q; y1 : Q;
  normal_orientation : string;
  color : string;
  line_id : string
}.

(** [int(np.round(v))]: [np.round] rounds halves to even. *)
Definition int_round (v : Q) : Z := round_half_even v.

(** The three [f.write] calls of [save_pcs_line]. *)
Definition pcs_chunks (line : LineOnImage) : list string :=
  [ "x=" +:+ str_int (int_round (x0 line)) +:+ "," +:+ str_int (int_round (x1 line)) +:+ nl;
    "y=" +:+ str_int (int_round (y0 line)) +:+ "," +:+ str_int (int_round (y1 line)) +:+ nl;
    "orientation=" +:+ normal_orientation line +:+ nl ].

(** [save_pcs_line(line, filename)] on the file system [fs]. *)
Definition save_pcs_line (line : LineOnImage) (filename : string)
    (fs : gmap string string) : gmap string string :=
  <[filename := written (pcs_chunks line)]> fs.

(** The local variables of [load_pcs_line]; [None] is a name not bound yet. *)
Record pcs_locals : Type := mkpcs {
  l_x0 : option Z; l_x1 : option Z;
  l_y0 : option Z; l_y1 : option Z;
  l_orientation : option string
}.

Definition pcs_init : pcs_locals := mkpcs None None None None None.

(** [line.split(key)[-1].split('\n')[0]] *)
Definition after_key (key line : string) : result string :=
  rhs ← index_last (split_str key line);
  index (split LF rhs) 0.

(** [a, b = [int(x) for x in coords.split(',')]] *)
Definition int_pair (coords : string) : result (Z * Z) :=
  xs ← mapM PyInt.int (split "," coords);
  match xs with
  | [a; b] => Ok (a, b)
  | _ => Raise ValueError
  end.

(** The body of the loop at lines 127-134. *)
Definition pcs_read_line (line : string) (st : pcs_locals) : result pcs_locals :=
  if contains "x=" line then
    coords ← after_key "x=" line;
    '(a, b) ← int_pair coords;
    Ok (mkpcs (Some a) (Some b) (l_y0 st) (l_y1 st) (l_orientation st))
  else if contains "y=" line then
    coords ← after_key "y=" line;
    '(a, b) ← int_pair coords;
    Ok (mkpcs (l_x0 st) (l_x1 st) (Some a) (Some b) (l_orientation st))
  else if contains "orientation=" line then
    o ← after_key "orientation=" line;
    Ok (mkpcs (l_x0 st) (l_x1 st) (l_y0 st) (l_y1 st) (Some o))
  else Ok st.

Fixpoint pcs_read_lines (lines : list string) (st : pcs_locals) : result pcs_locals :=
  match lines with
  | [] => Ok st
  | line :: rest => st' ← pcs_read_line line st; pcs_read_lines rest st'
  end.

(** How a call of [load_pcs_line] ends: with a value ([None] after the
    message that no file exists), with an exception of the loop, or with
    the [UnboundLocalError] of the first name the constructor call reads
    and finds unbound. *)
Inductive loaded : Type :=
  | Returns (v : option LineOnImage)
  | Raises (e : exn)
  | RaisesUnboundLocal (name : string).

(** The call [LineOnImage(x0=x0, y0=y0, x1=x1, y1=y1,
    normal_orientation=orientation, color=color, line_id=line_id)], its
    arguments evaluated from left to right. *)
Definition construct (st : pcs_locals) (color line_id : string) : loaded :=
  match l_x0 st, l_y0 st, l_x1 st, l_y1 st, l_orientation st with
  | None, _, _, _, _ => RaisesUnboundLocal "x0"
  | _, None, _, _, _ => RaisesUnboundLocal "y0"
  | _, _, None, _, _ => RaisesUnboundLocal "x1"
  | _, _, _, None, _ => RaisesUnboundLocal "y1"
  | _, _, _, _, None => RaisesUnboundLocal "orientation"
  | Some a0, Some b0, Some a1, Some b1, Some o =>
      Returns (Some (mkLineOnImage (inject_Z a0) (inject_Z b0) (inject_Z a1) (inject_Z b1)
                       o color line_id))
  end.

(** [load_pcs_line(filename, color, line_id)] on the file system [fs]. *)
Definition load_pcs_line (filename color line_id : string) (fs : gmap string string)
  : loaded :=
  match fs !! filename with
  | None => Returns None
  | Some text =>
      match pcs_read_lines (readlines (universal_newlines text)) pcs_init with
      | Raise e => Raises e
      | Ok st => construct st color line_id
      end
  end.

(** [save_light_dil_line] and [load_light_dil_line] hand over to the two
    functions above. *)
Definition save_light_dil_line (line : LineOnImage) (filename : string)
    (fs : gmap string string) : gmap string string :=
  save_pcs_line line filename fs.

Definition load_light_dil_line (filename color line_id : string)
    (fs : gmap string string) : loaded :=
  load_pcs_line filename color line_id fs.

End Pcs.

(** ** [write_script_crontab] and [read_script_crontab] *)

Module Crontab.
Import PyStr PyText PyDatetime IoPy.

(** An element of [time_on]: a [datetime], or anything else, taken to be a
    string in crontab's own format. *)
Inductive time_obj : Type :=
  | TimeDatetime (t : datetime)
  | TimeStr (s : string).

(** [t.strftime('%M %H')] *)
Definition strftime_M_H (t : datetime) : string :=
  pad2 (minute t) +:+ " " +:+ pad2 (hour t).

(** Lines 498-508: the text written for one command. *)
Definition cron_line (time : time_obj) (command : string) : string :=
  let time_str :=
    match time with
    | TimeDatetime t => strftime_M_H t +:+ " * * * "
    | TimeStr s => s +:+ " "
    end in
  (time_str +:+ command) +:+ nl.

Definition cron_title : string := "# Crontab schedule file written by pycam" +:+ nl.
Definition cron_path : string :=
  "PATH=/usr/local/sbin:/usr/local/bin:/sbin:/bin:/usr/sbin:/usr/bin" +:+ nl.

(** The loop over [range(len(cmd))], the two lists being of one length. *)
Fixpoint cron_lines (cmd : list string) (time_on : list time_obj) : list string :=
  match cmd, time_on with
  | command :: cmd', time :: time_on' => cron_line time command :: cron_lines cmd' time_on'
  | _, _ => []
  end.

(** [write_script_crontab(filename, cmd, time_on)] on the file system
    [fs]; with lists of different lengths it prints and returns. *)
Definition write_script_crontab (filename : string) (cmd : list string)
    (time_on : list time_obj) (fs : gmap string string) : gmap string string :=
  if negb (length cmd =? length time_on)%nat then fs
  else <[filename := written (cron_title :: cron_path :: cron_lines cmd time_on)]> fs.

(** A value of [minute] or [hour] in the reader: a string of the line or
    an [int] put in its place. *)
Inductive field : Type :=
  | FStr (s : string)
  | FInt (z : Z).

(** [int(f)] *)
Definition field_int (f : field) : result Z :=
  match f with
  | FStr s => PyInt.int s
  | FInt z => Ok z
  end.

(** Lines 520-535 for one line of the file: the pair stored under the
    command. *)
Definition cron_entry (line : string) : result (Z * Z) :=
  match take 2 (split_ws line) with
  | [minute; hour] =>
      '(minute, hour) ←
        (if String.eqb hour "*" then
           if String.eqb minute "0" then Ok (FInt 60, FInt 0)
           else m ← index_last (split "/" minute); Ok (FStr m, FInt 0)
         else Ok (FStr minute, FStr hour));
      '(minute, hour) ←
        match line with
        | String c _ => if Ascii.eqb c "#" then Ok (FInt 0, FInt 0) else Ok (minute, hour)
        | EmptyString => Raise IndexError
        end;
      h ← field_int hour;
      m ← field_int minute;
      Ok (h, m)
  | _ => Raise ValueError
  end.

(** [for cmd in cmds: if cmd in line: ...] *)
Fixpoint cron_read_line (line : string) (cmds : list string)
    (times : gmap string (Z * Z)) : result (gmap string (Z * Z)) :=
  match cmds with
  | [] => Ok times
  | cmd :: cmds' =>
      if contains cmd line then
        e ← cron_entry line;
        cron_read_line line cmds' (<[cmd := e]> times)
      else cron_read_line line cmds' times
  end.

Fixpoint cron_read_lines (lines cmds : list string)
    (times : gmap string (Z * Z)) : result (gmap string (Z * Z)) :=
  match lines with
  | [] => Ok times
  | line :: rest =>
      times' ← cron_read_line line cmds times;
      cron_read_lines rest cmds times'
  end.

(** [read_script_crontab(filename, cmds)] on the file system [fs]. *)
Definition read_script_crontab (filename : string) (cmds : list string)
    (fs : gmap string string) : result (gmap string (Z * Z)) :=
  match fs !! filename with
  | None => Raise FileNotFoundError
  | Some text => cron_read_lines (readlines (universal_newlines text)) cmds ∅
  end.

End Crontab.

(** ** Sample values for the examples of the second part *)

Module Samples.
Import PyStr PyText PyDatetime Pcs Crontab Sched.

Definition a_line : LineOnImage :=
  mkLineOnImage (5 # 2) (-7 # 2) 100 3 "right" "blue" "line".

(** A PCS file whose [x=] line is gone. *)
Definition pcs_text_without_x : string :=
  "y=-4,3" +:+ nl +:+ "orientation=right" +:+ nl.

Definition start_cmd : string := "python3 /home/pi/pycam/scripts/start.py".
Definition stop_cmd : string := "python3 /home/pi/pycam/scripts/stop.py".

End Samples.

(** ** Notions the statements of the second part are written with *)

Module Plain.
Import PyStr PyText IoPy Crontab Sched.

(** A string with no line break in it. *)
Definition plain (s : string) : Prop := occurs LF s = false /\ occurs CR s = false.

Definition plain_time (time : time_obj) : Prop :=
  match time with
  | TimeDatetime _ => True
  | TimeStr s => plain s
  end.

(** The loop of the crontab reader gets through the line: its entry can
    be read, or it holds none of the commands. *)
Definition passable (cmds : list string) (line : string) : Prop :=
  (exists e, cron_entry line = Ok e) \/ Forall (fun c => contains c line = false) cmds.


(** What the segment lines of a file add up to as printed, in minutes. *)
Definition printed_total (sgs : list segment) : Z :=
  foldr (fun sg acc => printed_minutes sg.2 + acc) 0 sgs.

(** A schedule file with two [on_time=] lines. *)
Definition text_with_two_on_times : string :=
  title_line
  +:+ "# on_time=06:00" +:+ nl
  +:+ "# off_time=18:00" +:+ nl
  +:+ "# on_time=07:30" +:+ nl
  +:+ end_line.

End Plain.

Import PyStr PyDatetime IoPy Sched.

(** ** Datetime arithmetic *)

Lemma sub_same_date a b : same_date a b -> sub a b = secs a - secs b.
Proof.
  intros (Hy & Hm & Hd). unfold sub, toordinal. rewrite Hy, Hm, Hd. lia.
Qed.

Lemma sub_diag a : sub a a = 0.
Proof. unfold sub. lia. Qed.

Lemma secs_range a : valid a -> 0 <= secs a < 86400.
Proof. unfold valid, secs. lia. Qed.

Lemma secs_inj a b : valid a -> valid b -> same_date a b -> secs a = secs b -> a = b.
Proof.
  intros Ha Hb (Hy & Hm & Hd) Hs. destruct a, b. unfold valid, secs in *.
  cbn [year month day hour minute second] in *.
  assert (hour0 = hour1) by lia. assert (minute0 = minute1) by lia.
  assert (second0 = second1) by lia. congruence.
Qed.

Lemma cmp_same_date a b :
  valid a -> valid b -> same_date a b -> cmp a b = (secs a ?= secs b).
Proof.
  intros Ha Hb (Hy & Hm & Hd). unfold cmp. rewrite Hy, Hm, Hd, !Z.compare_refl.
  unfold valid, secs in *. symmetry.
  destruct (Z.compare_spec (hour a) (hour b)) as [Hh|Hh|Hh];
    [ | apply Z.compare_lt_iff; lia | apply Z.compare_gt_iff; lia ].
  destruct (Z.compare_spec (minute a) (minute b)) as [Hmi|Hmi|Hmi];
    [ | apply Z.compare_lt_iff; lia | apply Z.compare_gt_iff; lia ].
  rewrite Hh, Hmi.
  destruct (Z.compare_spec (second a) (second b)) as [Hs|Hs|Hs];
    [ apply Z.compare_eq_iff | apply Z.compare_lt_iff | apply Z.compare_gt_iff ]; lia.
Qed.

Lemma lt_same_date a b :
  valid a -> valid b -> same_date a b -> lt a b = (secs a <? secs b).
Proof.
  intros Ha Hb Hab. unfold lt, Z.ltb. now rewrite cmp_same_date.
Qed.

Lemma gt_same_date a b :
  valid a -> valid b -> same_date a b -> gt a b = (secs b <? secs a).
Proof.
  intros Ha Hb Hab. unfold gt. rewrite cmp_same_date by assumption.
  rewrite Z.ltb_antisym, Z.leb_compare. now destruct (secs a ?= secs b).
Qed.

(** ** Hours and minutes of a duration *)

Lemma seconds_hours_mins (d : timedelta) : (seconds (hours_mins d) == inject_Z d)%Q.
Proof.
  unfold seconds, hours_mins, divmod, total_seconds. cbn [fst snd].
  rewrite Qmult_div_r by discriminate.
  change 3600%Q with (inject_Z 3600).
  rewrite <- inject_Z_mult, <- inject_Z_plus.
  change (60 * 60) with 3600.
  now rewrite <- Z.div_mod by discriminate.
Qed.

Lemma round_half_even_inject z : round_half_even (inject_Z z) = z.
Proof.
  unfold round_half_even, inject_Z. cbn [Qnum Qden].
  rewrite Z.div_1_r, Z.mod_1_r. reflexivity.
Qed.

Lemma round_half_even_ratio r :
  round_half_even (inject_Z r / 60) =
  match 2 * (r mod 60) ?= 60 with
  | Lt => r / 60
  | Gt => r / 60 + 1
  | Eq => if Z.even (r / 60) then r / 60 else r / 60 + 1
  end.
Proof.
  unfold round_half_even, Qdiv, Qmult, Qinv, inject_Z. cbn [Qnum Qden].
  change (Z.pos (1 * 60)) with 60. now rewrite Z.mul_1_r.
Qed.

Lemma printed_minutes_hours_mins d :
  printed_minutes (hours_mins d) =
  60 * (d / 3600) +
  match 2 * (d mod 3600 mod 60) ?= 60 with
  | Lt => d mod 3600 / 60
  | Gt => d mod 3600 / 60 + 1
  | Eq => if Z.even (d mod 3600 / 60) then d mod 3600 / 60 else d mod 3600 / 60 + 1
  end.
Proof.
  unfold printed_minutes, hours_mins, divmod, total_seconds. cbn [fst snd].
  now rewrite round_half_even_inject, round_half_even_ratio.
Qed.

(** Rounding to minutes moves a minute between the two lines at most: the
    two printed durations of a day split in two still make a day. *)
Lemma printed_pair d :
  0 < d < 86400 ->
  printed_minutes (hours_mins d) + printed_minutes (hours_mins (86400 - d)) = 1440.
Proof.
  intros Hd. rewrite !printed_minutes_hours_mins, !Zeven_mod.
  repeat match goal with
  | |- context [?a ?= ?b] => destruct (Z.compare_spec a b)
  | |- context [?a =? ?b] => destruct (Z.eqb_spec a b)
  end; Z.div_mod_to_equations; lia.
Qed.

(** ** Strings: characters, lines and fields *)

Lemma append_assoc (s t u : string) : (s +:+ t) +:+ u = s +:+ (t +:+ u).
Proof. induction s as [|c s IH]; [reflexivity|]. cbn. now rewrite IH. Qed.

Lemma occurs_app c s t : occurs c (s +:+ t) = occurs c s || occurs c t.
Proof.
  induction s as [|c' s IH]; [reflexivity|]. cbn. rewrite IH. now destruct (Ascii.eqb c' c).
Qed.

Lemma chars_in_app P s t : chars_in P (s +:+ t) = chars_in P s && chars_in P t.
Proof.
  induction s as [|c s IH]; [reflexivity|]. cbn. rewrite IH. now destruct (P c).
Qed.

Lemma chars_in_occurs P c s : chars_in P s = true -> P c = false -> occurs c s = false.
Proof.
  intros Hs Hc. induction s as [|c' s IH]; [reflexivity|]. cbn in *.
  apply andb_true_iff in Hs as [Hc' Hs]. rewrite (IH Hs), orb_false_r.
  destruct (Ascii.eqb_spec c' c) as [->|]; congruence.
Qed.

Lemma chars_in_mono (P R : ascii -> bool) s :
  (forall c, P c = true -> R c = true) -> chars_in P s = true -> chars_in R s = true.
Proof.
  intros HPR. induction s as [|c s IH]; [reflexivity|]. cbn.
  intros [Hc Hs]%andb_true_iff. now rewrite (HPR _ Hc), (IH Hs).
Qed.

Lemma digit_char_is_digit d : is_digit (digit_char d) = true.
Proof.
  destruct d as [|p|p]; try reflexivity.
  do 4 (destruct p as [p|p|]; try reflexivity).
Qed.

Lemma pad2_digits n : chars_in is_digit (pad2 n) = true.
Proof. unfold pad2. cbn. now rewrite !digit_char_is_digit. Qed.

Lemma pad4_digits n : chars_in is_digit (pad4 n) = true.
Proof. unfold pad4. cbn. now rewrite !digit_char_is_digit. Qed.

Lemma is_digit_numeric c : is_digit c = true -> is_numeric c = true.
Proof. unfold is_numeric. now intros ->. Qed.

Lemma string_of_uint_digits (d : Decimal.uint) :
  chars_in is_digit (NilEmpty.string_of_uint d) = true.
Proof. induction d; cbn; auto. Qed.

Lemma string_of_int_numeric (d : Decimal.signed_int) :
  chars_in is_numeric (NilZero.string_of_int d) = true.
Proof.
  assert (Hu : forall u, chars_in is_numeric (NilZero.string_of_uint u) = true).
  { intros u. apply chars_in_mono with (P := is_digit); [apply is_digit_numeric|].
    destruct u; try reflexivity; apply (string_of_uint_digits (_ u)). }
  destruct d as [u|u]; cbn; [apply Hu | apply Hu].
Qed.

Lemma format_0f_numeric q : chars_in is_numeric (format_0f q) = true.
Proof.
  unfold format_0f. destruct (_ && _); [reflexivity | apply string_of_int_numeric].
Qed.

Lemma readlines_line l rest : is_line l -> readlines (l +:+ rest) = l :: readlines rest.
Proof.
  intros (body & -> & Hb). induction body as [|c body IH]; [reflexivity|].
  cbn in Hb. apply orb_false_iff in Hb as [Hc Hb].
  cbn. rewrite Hc. now rewrite (IH Hb).
Qed.

Lemma readlines_written (chunks : list string) :
  Forall is_line chunks -> readlines (written chunks) = chunks.
Proof.
  induction 1 as [|l chunks Hl _ IH]; [reflexivity|].
  cbn. rewrite readlines_line by assumption. now f_equal.
Qed.

Lemma is_line_nl : is_line nl.
Proof. now exists EmptyString. Qed.

Lemma is_line_app s l : occurs LF s = false -> is_line l -> is_line (s +:+ l).
Proof.
  intros Hs (body & -> & Hb). exists (s +:+ body). split.
  - symmetry. apply append_assoc.
  - now rewrite occurs_app, Hs, Hb.
Qed.

Lemma split_absent c s : occurs c s = false -> split c s = [s].
Proof.
  induction s as [|c' s IH]; [reflexivity|]. cbn.
  intros [Hc Hs]%orb_false_iff. now rewrite Hc, (IH Hs).
Qed.

Lemma split_sep c s t :
  occurs c s = false -> split c (s +:+ String c t) = s :: split c t.
Proof.
  induction s as [|c' s IH]; cbn.
  - intros _. now rewrite Ascii.eqb_refl.
  - intros [Hc Hs]%orb_false_iff. now rewrite Hc, (IH Hs).
Qed.

Lemma contains_absent c key s : occurs c s = false -> contains (String c key) s = false.
Proof.
  induction s as [|c' s IH]; [reflexivity|]. cbn.
  intros [Hc Hs]%orb_false_iff. now rewrite Hc, (IH Hs).
Qed.

(** ** Reading back what [strftime] wrote *)

Lemma int_pad2 n : 0 <= n < 100 -> PyInt.int (pad2 n) = Ok n.
Proof.
  intros Hn. rewrite <- (Z2Nat.id n) by lia.
  assert (Hk : (Z.to_nat n < 100)%nat) by lia.
  generalize dependent (Z.to_nat n). clear n Hn. intros k Hk.
  do 100 (destruct k as [|k]; [reflexivity|]). lia.
Qed.

Lemma strftime_HM_digits t c :
  is_digit c = false -> Ascii.eqb ":" c = false -> occurs c (strftime_HM t) = false.
Proof.
  intros Hd Hc. unfold strftime_HM. rewrite !occurs_app. cbn [occurs].
  rewrite Hc, !(chars_in_occurs is_digit) by (apply pad2_digits || assumption).
  reflexivity.
Qed.

Lemma strftime_HMS_digits t c :
  is_digit c = false -> Ascii.eqb ":" c = false -> occurs c (strftime_HMS t) = false.
Proof.
  intros Hd Hc. unfold strftime_HMS. rewrite !occurs_app. cbn [occurs].
  rewrite Hc, !(chars_in_occurs is_digit) by (apply pad2_digits || assumption).
  reflexivity.
Qed.

Lemma strftime_Ymd_digits t c :
  is_digit c = false -> Ascii.eqb "-" c = false -> occurs c (strftime_Ymd t) = false.
Proof.
  intros Hd Hc. unfold strftime_Ymd. rewrite !occurs_app. cbn [occurs].
  rewrite Hc, !(chars_in_occurs is_digit)
    by (apply pad2_digits || apply pad4_digits || assumption).
  reflexivity.
Qed.

Lemma format_0f_occurs q c : is_numeric c = false -> occurs c (format_0f q) = false.
Proof. intros Hc. apply (chars_in_occurs is_numeric); [apply format_0f_numeric | exact Hc]. Qed.

(** The value of a header comment, read back. *)
Lemma hour_min_header name t :
  occurs "=" name = false ->
  valid t ->
  hour_min (name +:+ "=" +:+ strftime_HM t +:+ nl) = Ok (hour t, minute t).
Proof.
  intros Hname Ht. unfold hour_min.
  change (name +:+ "=" +:+ strftime_HM t +:+ nl)
    with (name +:+ String "=" (strftime_HM t +:+ nl)).
  rewrite split_sep by assumption.
  rewrite split_absent.
  2:{ rewrite occurs_app, strftime_HM_digits by reflexivity. reflexivity. }
  cbn [index lookup list_lookup mbind result_bind].
  change (strftime_HM t +:+ nl) with (strftime_HM t +:+ String LF EmptyString).
  rewrite split_sep by (apply strftime_HM_digits; reflexivity).
  cbn [split index lookup list_lookup mbind result_bind].
  unfold strftime_HM.
  change (pad2 (hour t) +:+ ":" +:+ pad2 (minute t))
    with (pad2 (hour t) +:+ String ":" (pad2 (minute t))).
  rewrite split_sep by (apply (chars_in_occurs is_digit); [apply pad2_digits | reflexivity]).
  rewrite split_absent by (apply (chars_in_occurs is_digit); [apply pad2_digits | reflexivity]).
  destruct Ht as (_ & _ & _ & Hh & Hm & _).
  cbn [mapM mbind result_bind mret result_ret].
  rewrite !int_pad2 by lia. reflexivity.
Qed.

(** ** The lines of the written file *)

Lemma kind_str_upper k c :
  Ascii.eqb "O" c = false -> Ascii.eqb "N" c = false -> Ascii.eqb "F" c = false ->
  occurs c (kind_str k) = false.
Proof. intros H1 H2 H3. destruct k; cbn [occurs kind_str]; now rewrite ?H1, ?H2, ?H3. Qed.

(** A character that is not of a number and not of the fixed text of a
    segment line does not occur in the line's body. *)
Lemma segment_line_is_line sg : is_line (segment_line sg).
Proof.
  unfold segment_line.
  apply is_line_app; [now apply kind_str_upper|].
  apply is_line_app; [reflexivity|].
  apply is_line_app; [now apply format_0f_occurs|].
  apply is_line_app; [reflexivity|].
  apply is_line_app; [now apply format_0f_occurs|].
  apply is_line_nl.
Qed.

Lemma header_is_line name t : occurs LF name = false -> is_line (name +:+ strftime_HM t +:+ nl).
Proof.
  intros Hn. apply is_line_app; [assumption|].
  apply is_line_app; [now apply strftime_HM_digits | apply is_line_nl].
Qed.

Lemma begin_line_is_line d t : is_line (begin_line (strftime_Ymd d) (strftime_HMS t)).
Proof.
  unfold begin_line.
  apply is_line_app; [reflexivity|].
  apply is_line_app; [now apply strftime_Ymd_digits|].
  apply is_line_app; [reflexivity|].
  apply is_line_app; [now apply strftime_HMS_digits | apply is_line_nl].
Qed.

Lemma title_line_is_line : is_line title_line.
Proof. apply is_line_app; [reflexivity | apply is_line_nl]. Qed.

Lemma end_line_is_line : is_line end_line.
Proof. apply is_line_app; [reflexivity | apply is_line_nl]. Qed.

Lemma single_chunks_lines now on off : Forall is_line (single_chunks now on off).
Proof.
  unfold single_chunks. apply Forall_app. split.
  - repeat apply Forall_cons_2; try apply Forall_nil_2;
      auto using title_line_is_line, end_line_is_line, begin_line_is_line, header_is_line.
  - apply Forall_fmap, Forall_forall. intros sg _. apply segment_line_is_line.
Qed.

Lemma dual_chunks_lines now on off on_2 off_2 :
  Forall is_line (dual_chunks now on off on_2 off_2).
Proof.
  unfold dual_chunks. apply Forall_app. split.
  - repeat apply Forall_cons_2; try apply Forall_nil_2;
      auto using title_line_is_line, end_line_is_line, begin_line_is_line, header_is_line.
  - apply Forall_fmap, Forall_forall. intros sg _. apply segment_line_is_line.
Qed.

(** ** The reader, line by line *)

Lemma read_line_other line st : occurs "o" line = false -> read_line line st = Ok st.
Proof.
  intros Ho. unfold read_line. now rewrite !contains_absent by assumption.
Qed.

Lemma read_line_title st : read_line title_line st = Ok st.
Proof. reflexivity. Qed.

Lemma read_line_end st : read_line end_line st = Ok st.
Proof. reflexivity. Qed.

Lemma read_line_begin d t st :
  read_line (begin_line (strftime_Ymd d) (strftime_HMS t)) st = Ok st.
Proof.
  apply read_line_other. unfold begin_line. rewrite !occurs_app.
  now rewrite strftime_Ymd_digits, strftime_HMS_digits.
Qed.

Lemma read_line_segment sg st : read_line (segment_line sg) st = Ok st.
Proof.
  apply read_line_other. unfold segment_line. rewrite !occurs_app.
  now rewrite kind_str_upper, !format_0f_occurs.
Qed.

Section KeyLines.
Variable X : string.
Hypothesis HX : occurs "o" X = false.

Lemma on_time_line_keys : contains "on_time=" ("# on_time=" +:+ X) = true.
Proof. reflexivity. Qed.

Lemma off_time_line_keys :
  contains "on_time=" ("# off_time=" +:+ X) = false /\
  contains "off_time=" ("# off_time=" +:+ X) = true.
Proof. split; [|reflexivity]. cbn. now apply contains_absent. Qed.

Lemma on_time_2_line_keys :
  contains "on_time=" ("# on_time_2=" +:+ X) = false /\
  contains "off_time=" ("# on_time_2=" +:+ X) = false /\
  contains "on_time_2=" ("# on_time_2=" +:+ X) = true.
Proof. repeat split; try reflexivity; cbn; now apply contains_absent. Qed.

Lemma off_time_2_line_keys :
  contains "on_time=" ("# off_time_2=" +:+ X) = false /\
  contains "off_time=" ("# off_time_2=" +:+ X) = false /\
  contains "on_time_2=" ("# off_time_2=" +:+ X) = false /\
  contains "off_time_2=" ("# off_time_2=" +:+ X) = true.
Proof. repeat split; try reflexivity; cbn; now apply contains_absent. Qed.
End KeyLines.

Lemma header_value_plain t : occurs "o" (strftime_HM t +:+ nl) = false.
Proof. now rewrite occurs_app, strftime_HM_digits. Qed.

Lemma read_line_on_time t st :
  valid t ->
  read_line ("# on_time=" +:+ strftime_HM t +:+ nl) st
  = Ok (mklocals (Some (hour t)) (Some (minute t)) (off_hour st) (off_min st)
          (on_hour_2 st) (on_min_2 st) (off_hour_2 st) (off_min_2 st)).
Proof.
  intros Ht. unfold read_line. rewrite on_time_line_keys.
  change ("# on_time=" +:+ strftime_HM t +:+ nl)
    with ("# on_time" +:+ "=" +:+ strftime_HM t +:+ nl).
  now rewrite hour_min_header.
Qed.

Lemma read_line_off_time t st :
  valid t ->
  read_line ("# off_time=" +:+ strftime_HM t +:+ nl) st
  = Ok (mklocals (on_hour st) (on_min st) (Some (hour t)) (Some (minute t))
          (on_hour_2 st) (on_min_2 st) (off_hour_2 st) (off_min_2 st)).
Proof.
  intros Ht. unfold read_line.
  destruct (off_time_line_keys _ (header_value_plain t)) as (-> & ->).
  change ("# off_time=" +:+ strftime_HM t +:+ nl)
    with ("# off_time" +:+ "=" +:+ strftime_HM t +:+ nl).
  now rewrite hour_min_header.
Qed.

Lemma read_line_on_time_2 t st :
  valid t ->
  read_line ("# on_time_2=" +:+ strftime_HM t +:+ nl) st
  = Ok (mklocals (on_hour st) (on_min st) (off_hour st) (off_min st)
          (Some (hour t)) (Some (minute t)) (off_hour_2 st) (off_min_2 st)).
Proof.
  intros Ht. unfold read_line.
  destruct (on_time_2_line_keys _ (header_value_plain t)) as (-> & -> & ->).
  change ("# on_time_2=" +:+ strftime_HM t +:+ nl)
    with ("# on_time_2" +:+ "=" +:+ strftime_HM t +:+ nl).
  now rewrite hour_min_header.
Qed.

Lemma read_line_off_time_2 t st :
  valid t ->
  read_line ("# off_time_2=" +:+ strftime_HM t +:+ nl) st
  = Ok (mklocals (on_hour st) (on_min st) (off_hour st) (off_min st)
          (on_hour_2 st) (on_min_2 st) (Some (hour t)) (Some (minute t))).
Proof.
  intros Ht. unfold read_line.
  destruct (off_time_2_line_keys _ (header_value_plain t)) as (-> & -> & -> & ->).
  change ("# off_time_2=" +:+ strftime_HM t +:+ nl)
    with ("# off_time_2" +:+ "=" +:+ strftime_HM t +:+ nl).
  now rewrite hour_min_header.
Qed.

Lemma read_lines_segments sgs st : read_lines (segment_line <$> sgs) st = Ok st.
Proof.
  induction sgs as [|sg sgs IH]; [reflexivity|].
  cbn [fmap list_fmap read_lines]. now rewrite read_line_segment.
Qed.

Lemma read_lines_app l1 l2 st :
  read_lines (l1 ++ l2) st = read_lines l1 st ≫= read_lines l2.
Proof.
  revert st. induction l1 as [|l l1 IH]; intros st; [reflexivity|].
  cbn [app read_lines]. destruct (read_line l st); cbn; [apply IH | reflexivity].
Qed.

Lemma read_single_chunks now on off :
  valid on -> valid off ->
  read_lines (single_chunks now on off) init
  = Ok (mklocals (Some (hour on)) (Some (minute on)) (Some (hour off)) (Some (minute off))
          None None None None).
Proof.
  intros Hon Hoff. unfold single_chunks. rewrite read_lines_app.
  cbn [read_lines]. rewrite read_line_title. cbn [mbind result_bind].
  rewrite read_line_on_time by assumption. cbn [mbind result_bind].
  rewrite read_line_off_time by assumption. cbn [mbind result_bind].
  rewrite read_line_begin. cbn [mbind result_bind].
  rewrite read_line_end. cbn [mbind result_bind].
  now rewrite read_lines_segments.
Qed.

Lemma read_dual_chunks now on off on_2 off_2 :
  valid on -> valid off -> valid on_2 -> valid off_2 ->
  read_lines (dual_chunks now on off on_2 off_2) init
  = Ok (mklocals (Some (hour on)) (Some (minute on)) (Some (hour off)) (Some (minute off))
          (Some (hour on_2)) (Some (minute on_2))
          (Some (hour off_2)) (Some (minute off_2))).
Proof.
  intros Hon Hoff Hon2 Hoff2. unfold dual_chunks. rewrite read_lines_app.
  cbn [read_lines]. rewrite read_line_title. cbn [mbind result_bind].
  rewrite read_line_on_time by assumption. cbn [mbind result_bind].
  rewrite read_line_off_time by assumption. cbn [mbind result_bind].
  rewrite read_line_on_time_2 by assumption. cbn [mbind result_bind].
  rewrite read_line_off_time_2 by assumption. cbn [mbind result_bind].
  rewrite read_line_begin. cbn [mbind result_bind].
  rewrite read_line_end. cbn [mbind result_bind].
  now rewrite read_lines_segments.
Qed.

(** ** The file after a call of the writer *)

Lemma write_single_lookup now filename on off on_2 off_2 (fs : gmap string string) :
  on_2 = None \/ off_2 = None ->
  write_witty_schedule_file now filename on off on_2 off_2 fs !! filename
  = Some (written (single_chunks now on off)).
Proof.
  unfold write_witty_schedule_file.
  intros [-> | ->]; [destruct off_2 | destruct on_2]; apply lookup_insert_eq.
Qed.

Lemma write_dual_lookup now filename on off on_2 off_2 (fs : gmap string string) :
  write_witty_schedule_file now filename on off (Some on_2) (Some off_2) fs !! filename
  = Some (written (dual_chunks now on off on_2 off_2)).
Proof. apply lookup_insert_eq. Qed.

Lemma read_written filename (fs : gmap string string) chunks st :
  fs !! filename = Some (written chunks) ->
  Forall is_line chunks ->
  read_lines chunks init = Ok st ->
  read_witty_schedule_file filename fs
  = Ok (Tuple (on_hour st, on_min st) (off_hour st, off_min st)
          (on_hour_2 st, on_min_2 st) (off_hour_2 st, off_min_2 st)).
Proof.
  intros Hfs Hl Hr. unfold read_witty_schedule_file.
  now rewrite Hfs, readlines_written, Hr.
Qed.

(** C3. Round trip: what [write_witty_schedule_file] wrote,
    [read_witty_schedule_file] reads back as the hour and minute of the on
    and off times, with [(None, None)] for the second window in the
    single-window form and the second window's hours and minutes in the
    dual-window form. *)
Theorem C3_write_read_round_trip now filename on off on_2 off_2 (fs : gmap string string) :
  valid on -> valid off -> valid on_2 -> valid off_2 ->
  (forall o2 f2, o2 = None \/ f2 = None ->
     read_witty_schedule_file filename
       (write_witty_schedule_file now filename on off o2 f2 fs)
     = Ok (Tuple (Some (hour on), Some (minute on)) (Some (hour off), Some (minute off))
             (None, None) (None, None)))
  /\ read_witty_schedule_file filename
       (write_witty_schedule_file now filename on off (Some on_2) (Some off_2) fs)
     = Ok (Tuple (Some (hour on), Some (minute on)) (Some (hour off), Some (minute off))
             (Some (hour on_2), Some (minute on_2))
             (Some (hour off_2), Some (minute off_2))).
Proof.
  intros Hon Hoff Hon2 Hoff2. split.
  - intros o2 f2 Hnone.
    erewrite read_written;
      [ | apply write_single_lookup, Hnone | apply single_chunks_lines
        | apply read_single_chunks; assumption ].
    reflexivity.
  - erewrite read_written;
      [ | apply write_dual_lookup | apply dual_chunks_lines
        | apply read_dual_chunks; assumption ].
    reflexivity.
Qed.

(** Where the BEGIN and END lines stand in the file, and which datetimes
    the BEGIN line is formatted from. *)
Lemma begin_end_lines_of_file now filename on off on_2 off_2 (fs : gmap string string) :
  (forall o2 f2, o2 = None \/ f2 = None ->
     exists text,
       write_witty_schedule_file now filename on off o2 f2 fs !! filename = Some text /\
       readlines text !! 3%nat
       = Some ("BEGIN " +:+ strftime_Ymd now +:+ " " +:+ strftime_HMS on +:+ nl) /\
       readlines text !! 4%nat = Some ("END 2038-01-01 12:00:00" +:+ nl))
  /\ (exists text,
       write_witty_schedule_file now filename on off (Some on_2) (Some off_2) fs !! filename
       = Some text /\
       readlines text !! 5%nat
       = Some ("BEGIN " +:+ strftime_Ymd now +:+ " "
               +:+ strftime_HMS (if lt on on_2 then on else on_2) +:+ nl) /\
       readlines text !! 6%nat = Some ("END 2038-01-01 12:00:00" +:+ nl))
  /\ (valid on -> valid on_2 -> same_date on on_2 ->
      secs (if lt on on_2 then on else on_2) = Z.min (secs on) (secs on_2)).
Proof.
  split; [|split].
  - intros o2 f2 Hnone. eexists. split; [apply write_single_lookup, Hnone|].
    rewrite readlines_written by apply single_chunks_lines. split; reflexivity.
  - eexists. split; [apply write_dual_lookup|].
    rewrite readlines_written by apply dual_chunks_lines.
    split; [|reflexivity].
    unfold dual_chunks, arrange.
    destruct (lt on on_2); [destruct (gt off on) | destruct (gt off_2 on_2)]; reflexivity.
  - intros Hon Hon2 Hsame. rewrite lt_same_date by assumption.
    destruct (Z.ltb_spec (secs on) (secs on_2)); lia.
Qed.

(** ** Example times *)

Lemma valid_at_time h m : 0 <= h < 24 -> 0 <= m < 60 -> valid (at_time h m).
Proof.
  intros Hh Hm. unfold valid, at_time. cbn [year month day hour minute second].
  change (days_in_month 2020 1) with 31. lia.
Defined.

Lemma same_date_at_time h m h' m' : same_date (at_time h m) (at_time h' m').
Proof. now repeat split. Defined.

Lemma at_time_neq h m h' m' : h <> h' -> at_time h m <> at_time h' m'.
Proof. intros Hne Heq. apply Hne. now injection Heq. Defined.

(** The round trip at 06:05-09:07, alone and with 18:00-21:59. *)
Lemma C3_write_read_round_trip_witness :
  (forall o2 f2, o2 = None \/ f2 = None ->
     read_witty_schedule_file "schedule.wpi"
       (write_witty_schedule_file a_now "schedule.wpi" (at_time 6 5) (at_time 9 7) o2 f2 ∅)
     = Ok (Tuple (Some 6, Some 5) (Some 9, Some 7) (None, None) (None, None)))
  /\ read_witty_schedule_file "schedule.wpi"
       (write_witty_schedule_file a_now "schedule.wpi" (at_time 6 5) (at_time 9 7)
          (Some (at_time 18 0)) (Some (at_time 21 59)) ∅)
     = Ok (Tuple (Some 6, Some 5) (Some 9, Some 7) (Some 18, Some 0) (Some 21, Some 59)).
Proof.
  apply (C3_write_read_round_trip a_now "schedule.wpi"
           (at_time 6 5) (at_time 9 7) (at_time 18 0) (at_time 21 59) ∅);
    apply valid_at_time; lia.
Defined.

Lemma digits_step c d acc b s :
  PyInt.digit_value c = Some d ->
  PyInt.digits acc b (String c s) = PyInt.digits (10 * acc + d) true s.
Proof. intros Hc. cbn [PyInt.digits]. now rewrite Hc. Qed.

(** ** Numerals of [strftime] *)

Lemma digit_value_digit_char d :
  0 <= d <= 9 -> PyInt.digit_value (digit_char d) = Some d.
Proof.
  intros Hd.
  assert (H : d = 0 \/ d = 1 \/ d = 2 \/ d = 3 \/ d = 4 \/ d = 5 \/ d = 6 \/ d = 7
              \/ d = 8 \/ d = 9) by lia.
  repeat (destruct H as [-> | H]; [reflexivity|]). now subst.
Qed.

Lemma parse_digit_first d rest :
  0 <= d <= 9 ->
  PyInt.parse (String (digit_char d) rest) = PyInt.digits 0 false (String (digit_char d) rest).
Proof.
  intros Hd.
  assert (H : d = 0 \/ d = 1 \/ d = 2 \/ d = 3 \/ d = 4 \/ d = 5 \/ d = 6 \/ d = 7
              \/ d = 8 \/ d = 9) by lia.
  repeat (destruct H as [-> | H]; [reflexivity|]). now subst.
Qed.

Lemma int_pad4 n : 0 <= n < 10000 -> PyInt.int (pad4 n) = Ok n.
Proof.
  intros Hn. unfold PyInt.int, pad4, pad2.
  rewrite parse_digit_first by (Z.div_mod_to_equations; lia).
  rewrite (digits_step _ (n / 1000))
    by (apply digit_value_digit_char; Z.div_mod_to_equations; lia).
  rewrite (digits_step _ (n / 100 mod 10))
    by (apply digit_value_digit_char; Z.div_mod_to_equations; lia).
  rewrite (digits_step _ (n mod 100 / 10))
    by (apply digit_value_digit_char; Z.div_mod_to_equations; lia).
  rewrite (digits_step _ (n mod 100 mod 10))
    by (apply digit_value_digit_char; Z.div_mod_to_equations; lia).
  cbn [PyInt.digits]. do 2 f_equal. Z.div_mod_to_equations. lia.
Qed.

Lemma decimal_pad2 n : 0 <= n < 100 -> decimal 2 (pad2 n) n.
Proof.
  intros Hn. split; [reflexivity|]. split; [apply pad2_digits | now apply int_pad2].
Qed.

Lemma decimal_pad4 n : 0 <= n < 10000 -> decimal 4 (pad4 n) n.
Proof.
  intros Hn. split; [reflexivity|]. split; [apply pad4_digits | now apply int_pad4].
Qed.

Lemma days_in_month_le y m : 1 <= m <= 12 -> days_in_month y m <= 31.
Proof.
  intros Hm.
  assert (H : m = 1 \/ m = 2 \/ m = 3 \/ m = 4 \/ m = 5 \/ m = 6 \/ m = 7 \/ m = 8
              \/ m = 9 \/ m = 10 \/ m = 11 \/ m = 12) by lia.
  unfold days_in_month.
  repeat (destruct H as [-> | H];
          [destruct (is_leap y); vm_compute; intros Hc; discriminate Hc|]).
  subst. destruct (is_leap y); vm_compute; intros Hc; discriminate Hc.
Qed.

(** The two halves of a BEGIN line, numeral by numeral. *)
Lemma begin_line_numerals now t :
  valid now -> valid t ->
  exists Y M D h m s,
    begin_line (strftime_Ymd now) (strftime_HMS t)
    = "BEGIN " +:+ Y +:+ "-" +:+ M +:+ "-" +:+ D +:+ " "
      +:+ h +:+ ":" +:+ m +:+ ":" +:+ s +:+ nl /\
    decimal 4 Y (year now) /\ decimal 2 M (month now) /\ decimal 2 D (day now) /\
    decimal 2 h (hour t) /\ decimal 2 m (minute t) /\ decimal 2 s (second t).
Proof.
  intros (Hy & Hmo & Hd & _) (_ & _ & _ & Hh & Hm & Hs).
  pose proof (days_in_month_le (year now) (month now) Hmo) as Hdm.
  exists (pad4 (year now)), (pad2 (month now)), (pad2 (day now)),
         (pad2 (hour t)), (pad2 (minute t)), (pad2 (second t)).
  split.
  - unfold begin_line, strftime_Ymd, strftime_HMS. now rewrite !append_assoc.
  - repeat split; try (apply decimal_pad4; lia); apply decimal_pad2; lia.
Qed.

Lemma valid_a_now : valid a_now.
Proof.
  unfold valid, a_now. cbn [year month day hour minute second].
  change (days_in_month 2021 3) with 31. lia.
Defined.

(** C9. In every file the writer produces, the BEGIN line is the word
    BEGIN, the date of the call as year-month-day and the time of day at
    which the first segment starts as hour:minute:second ([time_on] with
    one window, the earlier of the two on-times with two), each field a
    zero-padded numeral that reads as the field; the END line is the fixed
    [2038-01-01 12:00:00]. Called on 2021-03-14 with on-time 06:05 the line
    is [BEGIN 2021-03-14 06:05:00]; with on-times 18:00 and 06:30 it is
    [BEGIN 2021-03-14 06:30:00]. *)
Theorem C9_begin_and_end_lines :
  (forall now filename on off o2 f2 (fs : gmap string string),
     valid now -> valid on -> o2 = None \/ f2 = None ->
     exists text Y M D h m s,
       write_witty_schedule_file now filename on off o2 f2 fs !! filename = Some text /\
       readlines text !! 3%nat
       = Some ("BEGIN " +:+ Y +:+ "-" +:+ M +:+ "-" +:+ D +:+ " "
               +:+ h +:+ ":" +:+ m +:+ ":" +:+ s +:+ nl) /\
       decimal 4 Y (year now) /\ decimal 2 M (month now) /\ decimal 2 D (day now) /\
       decimal 2 h (hour on) /\ decimal 2 m (minute on) /\ decimal 2 s (second on) /\
       readlines text !! 4%nat = Some ("END 2038-01-01 12:00:00" +:+ nl))
  /\ (forall now filename on off on_2 off_2 (fs : gmap string string),
        valid now -> valid on -> valid on_2 ->
        exists text Y M D h m s,
          write_witty_schedule_file now filename on off (Some on_2) (Some off_2) fs
            !! filename = Some text /\
          readlines text !! 5%nat
          = Some ("BEGIN " +:+ Y +:+ "-" +:+ M +:+ "-" +:+ D +:+ " "
                  +:+ h +:+ ":" +:+ m +:+ ":" +:+ s +:+ nl) /\
          decimal 4 Y (year now) /\ decimal 2 M (month now) /\ decimal 2 D (day now) /\
          decimal 2 h (hour (if lt on on_2 then on else on_2)) /\
          decimal 2 m (minute (if lt on on_2 then on else on_2)) /\
          decimal 2 s (second (if lt on on_2 then on else on_2)) /\
          readlines text !! 6%nat = Some ("END 2038-01-01 12:00:00" +:+ nl))
  /\ (forall on on_2,
        valid on -> valid on_2 -> same_date on on_2 ->
        secs (if lt on on_2 then on else on_2) = Z.min (secs on) (secs on_2))
  /\ (exists text,
        write_witty_schedule_file a_now "schedule.wpi" (at_time 6 5) (at_time 18 0)
          None None ∅ !! "schedule.wpi" = Some text /\
        readlines text !! 3%nat = Some ("BEGIN 2021-03-14 06:05:00" +:+ nl) /\
        readlines text !! 4%nat = Some ("END 2038-01-01 12:00:00" +:+ nl))
  /\ (exists text,
        write_witty_schedule_file a_now "schedule.wpi" (at_time 18 0) (at_time 21 0)
          (Some (at_time 6 30)) (Some (at_time 9 0)) ∅ !! "schedule.wpi" = Some text /\
        readlines text !! 5%nat = Some ("BEGIN 2021-03-14 06:30:00" +:+ nl) /\
        readlines text !! 6%nat = Some ("END 2038-01-01 12:00:00" +:+ nl)).
Proof.
  split; [|split; [|split; [|split]]].
  - intros now filename on off o2 f2 fs Vnow Von Hnone.
    destruct (proj1 (begin_end_lines_of_file now filename on off on off fs) o2 f2 Hnone)
      as (text & Hfile & Hbegin & Hend).
    destruct (begin_line_numerals now on Vnow Von)
      as (Y & M & D & h & m & s & Hline & HY & HM & HD & Hh & Hm & Hs).
    exists text, Y, M, D, h, m, s. split; [exact Hfile|].
    split; [rewrite Hbegin; f_equal; exact Hline|].
    repeat (split; [assumption|]). assumption.
  - intros now filename on off on_2 off_2 fs Vnow Von Von_2.
    destruct (proj1 (proj2 (begin_end_lines_of_file now filename on off on_2 off_2 fs)))
      as (text & Hfile & Hbegin & Hend).
    assert (Vstart : valid (if lt on on_2 then on else on_2))
      by now destruct (lt on on_2).
    destruct (begin_line_numerals now _ Vnow Vstart)
      as (Y & M & D & h & m & s & Hline & HY & HM & HD & Hh & Hm & Hs).
    exists text, Y, M, D, h, m, s. split; [exact Hfile|].
    split; [rewrite Hbegin; f_equal; exact Hline|].
    repeat (split; [assumption|]). assumption.
  - intros on on_2.
    exact (proj2 (proj2 (begin_end_lines_of_file on "" on on on_2 on ∅))).
  - eexists. split; [apply write_single_lookup; now left|]. split; reflexivity.
  - eexists. split; [apply write_dual_lookup|]. split; reflexivity.
Qed.

(** The numerals of the BEGIN line written on 2021-03-14 15:09:26 for
    on-times 18:00 and 06:30: the file begins at the earlier, 06:30. *)
Lemma C9_begin_and_end_lines_witness :
  (exists text Y M D h m s,
     write_witty_schedule_file a_now "schedule.wpi" (at_time 18 0) (at_time 21 0)
       (Some (at_time 6 30)) (Some (at_time 9 0)) ∅ !! "schedule.wpi" = Some text /\
     readlines text !! 5%nat
     = Some ("BEGIN " +:+ Y +:+ "-" +:+ M +:+ "-" +:+ D +:+ " "
             +:+ h +:+ ":" +:+ m +:+ ":" +:+ s +:+ nl) /\
     decimal 4 Y 2021 /\ decimal 2 M 3 /\ decimal 2 D 14 /\
     decimal 2 h 6 /\ decimal 2 m 30 /\ decimal 2 s 0 /\
     readlines text !! 6%nat = Some ("END 2038-01-01 12:00:00" +:+ nl))
  /\ (exists text Y M D h m s,
     write_witty_schedule_file a_now "schedule.wpi" (at_time 6 5) (at_time 18 0)
       None None ∅ !! "schedule.wpi" = Some text /\
     readlines text !! 3%nat
     = Some ("BEGIN " +:+ Y +:+ "-" +:+ M +:+ "-" +:+ D +:+ " "
             +:+ h +:+ ":" +:+ m +:+ ":" +:+ s +:+ nl) /\
     decimal 4 Y 2021 /\ decimal 2 M 3 /\ decimal 2 D 14 /\
     decimal 2 h 6 /\ decimal 2 m 5 /\ decimal 2 s 0 /\
     readlines text !! 4%nat = Some ("END 2038-01-01 12:00:00" +:+ nl))
  /\ secs (if lt (at_time 18 0) (at_time 6 30) then at_time 18 0 else at_time 6 30)
     = Z.min (secs (at_time 18 0)) (secs (at_time 6 30)).
Proof.
  split; [|split].
  - apply (proj1 (proj2 C9_begin_and_end_lines) a_now "schedule.wpi"
             (at_time 18 0) (at_time 21 0) (at_time 6 30) (at_time 9 0) ∅).
    + apply valid_a_now.
    + apply valid_at_time; lia.
    + apply valid_at_time; lia.
  - apply (proj1 C9_begin_and_end_lines a_now "schedule.wpi"
             (at_time 6 5) (at_time 18 0) None None ∅).
    + apply valid_a_now.
    + apply valid_at_time; lia.
    + now left.
  - apply (proj1 (proj2 (proj2 C9_begin_and_end_lines)) (at_time 18 0) (at_time 6 30)).
    + apply valid_at_time; lia.
    + apply valid_at_time; lia.
    + apply same_date_at_time.
Defined.

(** ** One window *)

Lemma single_window_later on off :
  0 < sub off on ->
  single_window on off = (hours_mins (sub off on), hours_mins (86400 - sub off on)).
Proof.
  intros H. unfold single_window. now rewrite (proj2 (Z.ltb_lt _ _) H).
Qed.

Lemma single_window_earlier on off :
  sub off on < 0 ->
  single_window on off = (hours_mins (86400 - sub on off), hours_mins (sub on off)).
Proof.
  intros H. unfold single_window.
  rewrite (proj2 (Z.ltb_ge _ _)) by lia. now rewrite (proj2 (Z.ltb_lt _ _) H).
Qed.

Lemma single_window_equal on off :
  sub off on = 0 -> single_window on off = ((24%Q, 0%Q), (0%Q, 0%Q)).
Proof. intros H. unfold single_window. now rewrite H. Qed.

Lemma sub_antisym a b : sub a b = - sub b a.
Proof. unfold sub. lia. Qed.

Lemma seconds_pair d :
  (seconds (hours_mins d) + seconds (hours_mins (86400 - d)%Z) == 86400)%Q.
Proof.
  rewrite !seconds_hours_mins, <- inject_Z_plus.
  now replace (d + (86400 - d)) with 86400 by lia.
Qed.

Lemma inject_Z_sub a b : (inject_Z (a - b) == inject_Z a - inject_Z b)%Q.
Proof. unfold Z.sub, Qminus. now rewrite inject_Z_plus, inject_Z_opp. Qed.

Lemma seconds_pos d : 0 < d -> (0 < seconds (hours_mins d))%Q.
Proof.
  intros Hd. rewrite seconds_hours_mins. change 0%Q with (inject_Z 0).
  now rewrite <- Zlt_Qlt.
Qed.

(** C1. With one window whose on and off times of day differ, the writer
    produces one ON and one OFF segment; both durations are positive and
    they add up to 24 hours exactly, before formatting and as printed; the
    two lines close the file. *)
Theorem C1_single_window_partitions_day now filename on off (fs : gmap string string) :
  valid on -> valid off -> same_date on off -> on <> off ->
  exists hm_on hm_off,
    single_segments on off = [(ON, hm_on); (OFF, hm_off)] /\
    (seconds hm_on + seconds hm_off == 86400)%Q /\
    (0 < seconds hm_on)%Q /\ (0 < seconds hm_off)%Q /\
    printed_minutes hm_on + printed_minutes hm_off = 24 * 60 /\
    exists text,
      write_witty_schedule_file now filename on off None None fs !! filename = Some text /\
      drop 5 (readlines text) = [segment_line (ON, hm_on); segment_line (OFF, hm_off)].
Proof.
  intros Hon Hoff Hsame Hne.
  assert (Hs : secs on <> secs off) by (intros Heq; now apply Hne, secs_inj).
  pose proof (secs_range on Hon). pose proof (secs_range off Hoff).
  assert (Hsub : sub off on = secs off - secs on).
  { apply sub_same_date. destruct Hsame as (? & ? & ?). now repeat split. }
  assert (Hfile : forall hm_on hm_off,
    single_window on off = (hm_on, hm_off) ->
    exists text,
      write_witty_schedule_file now filename on off None None fs !! filename = Some text /\
      drop 5 (readlines text) = [segment_line (ON, hm_on); segment_line (OFF, hm_off)]).
  { intros hm_on hm_off Hw. eexists. split; [apply write_single_lookup; now left|].
    rewrite readlines_written by apply single_chunks_lines.
    unfold single_chunks, single_segments. now rewrite Hw. }
  destruct (Z.lt_trichotomy (sub off on) 0) as [Hlt | [Heq | Hgt]]; [ | lia | ].
  - pose proof (single_window_earlier on off Hlt) as Hw.
    rewrite (sub_antisym on off) in Hw.
    do 2 eexists. split; [unfold single_segments; now rewrite Hw|].
    split; [rewrite Qplus_comm; apply seconds_pair|].
    split; [apply seconds_pos; lia|]. split; [apply seconds_pos; lia|].
    split; [rewrite Z.add_comm; apply printed_pair; lia|].
    now apply Hfile.
  - pose proof (single_window_later on off Hgt) as Hw.
    do 2 eexists. split; [unfold single_segments; now rewrite Hw|].
    split; [apply seconds_pair|].
    split; [apply seconds_pos; lia|]. split; [apply seconds_pos; lia|].
    split; [apply printed_pair; lia|].
    now apply Hfile.
Qed.

(** The partition at on 06:00, off 18:00. *)
Lemma C1_single_window_partitions_day_witness :
  exists hm_on hm_off,
    single_segments (at_time 6 0) (at_time 18 0) = [(ON, hm_on); (OFF, hm_off)] /\
    (seconds hm_on + seconds hm_off == 86400)%Q /\
    (0 < seconds hm_on)%Q /\ (0 < seconds hm_off)%Q /\
    printed_minutes hm_on + printed_minutes hm_off = 24 * 60 /\
    exists text,
      write_witty_schedule_file a_now "schedule.wpi" (at_time 6 0) (at_time 18 0)
        None None ∅ !! "schedule.wpi" = Some text /\
      drop 5 (readlines text) = [segment_line (ON, hm_on); segment_line (OFF, hm_off)].
Proof.
  apply (C1_single_window_partitions_day a_now "schedule.wpi" (at_time 6 0) (at_time 18 0) ∅).
  - apply valid_at_time; lia.
  - apply valid_at_time; lia.
  - apply same_date_at_time.
  - apply at_time_neq. lia.
Defined.

(** The two segment lines of one window on a given day, as printed. *)
Lemma single_lines y m d h1 m1 h2 m2 :
  segment_line <$> single_segments (mkdatetime y m d h1 m1 0) (mkdatetime y m d h2 m2 0)
  = segment_line <$> single_segments (at_time h1 m1) (at_time h2 m2).
Proof.
  unfold single_segments, single_window.
  rewrite !(sub_same_date (mkdatetime y m d _ _ _) (mkdatetime y m d _ _ _))
    by now repeat split.
  rewrite !(sub_same_date (at_time _ _) (at_time _ _)) by now repeat split.
  reflexivity.
Qed.

(** C7. When the on time of day is strictly earlier than the off time, the
    ON duration is exactly [off - on] and the OFF duration exactly
    [24h - (off - on)]; on at 06:00 and off at 18:00, on any day, prints
    ON 12 hours 0 minutes and OFF 12 hours 0 minutes. *)
Theorem C7_same_day_window :
  (forall on off,
     valid on -> valid off -> same_date on off -> lt on off = true ->
     exists hm_on hm_off,
       single_segments on off = [(ON, hm_on); (OFF, hm_off)] /\
       (seconds hm_on == inject_Z (sub off on))%Q /\
       (seconds hm_off == 86400 - inject_Z (sub off on))%Q /\
       sub off on = secs off - secs on)
  /\ (forall y m d,
        segment_line <$> single_segments (mkdatetime y m d 6 0 0) (mkdatetime y m d 18 0 0)
        = ["ON H12 M0" +:+ nl; "OFF H12 M0" +:+ nl]).
Proof.
  split.
  - intros on off Hon Hoff Hsame Hlt.
    rewrite lt_same_date in Hlt by assumption. apply Z.ltb_lt in Hlt.
    assert (Hsub : sub off on = secs off - secs on).
    { apply sub_same_date. destruct Hsame as (? & ? & ?). now repeat split. }
    exists (hours_mins (sub off on)), (hours_mins (86400 - sub off on)).
    split; [unfold single_segments; rewrite single_window_later by lia; reflexivity|].
    split; [apply seconds_hours_mins|].
    split; [|exact Hsub].
    rewrite seconds_hours_mins. apply inject_Z_sub.
  - intros y m d. rewrite single_lines. reflexivity.
Qed.

(** The same-day window 06:00-18:00. *)
Lemma C7_same_day_window_witness :
  exists hm_on hm_off,
    single_segments (at_time 6 0) (at_time 18 0) = [(ON, hm_on); (OFF, hm_off)] /\
    (seconds hm_on == inject_Z (sub (at_time 18 0) (at_time 6 0)))%Q /\
    (seconds hm_off == 86400 - inject_Z (sub (at_time 18 0) (at_time 6 0)))%Q /\
    sub (at_time 18 0) (at_time 6 0) = secs (at_time 18 0) - secs (at_time 6 0).
Proof.
  apply (proj1 C7_same_day_window (at_time 6 0) (at_time 18 0)).
  - apply valid_at_time; lia.
  - apply valid_at_time; lia.
  - apply same_date_at_time.
  - reflexivity.
Defined.

(** C8, as the code has it. When the on time of day is strictly later than
    the off time, the OFF duration is exactly [on - off] and the ON duration
    exactly [24h - (on - off)]; on at 20:00 and off at 06:00, on any day,
    prints ON 10 hours 0 minutes and OFF 14 hours 0 minutes. *)
Theorem C8_window_through_midnight :
  (forall on off,
     valid on -> valid off -> same_date on off -> gt on off = true ->
     exists hm_on hm_off,
       single_segments on off = [(ON, hm_on); (OFF, hm_off)] /\
       (seconds hm_off == inject_Z (sub on off))%Q /\
       (seconds hm_on == 86400 - inject_Z (sub on off))%Q /\
       sub on off = secs on - secs off)
  /\ (forall y m d,
        segment_line <$> single_segments (mkdatetime y m d 20 0 0) (mkdatetime y m d 6 0 0)
        = ["ON H10 M0" +:+ nl; "OFF H14 M0" +:+ nl]).
Proof.
  split.
  - intros on off Hon Hoff Hsame Hgt.
    rewrite gt_same_date in Hgt by assumption. apply Z.ltb_lt in Hgt.
    assert (Hsub : sub on off = secs on - secs off) by now apply sub_same_date.
    exists (hours_mins (86400 - sub on off)), (hours_mins (sub on off)).
    split.
    { unfold single_segments. rewrite single_window_earlier; [reflexivity|].
      rewrite sub_antisym. lia. }
    split; [apply seconds_hours_mins|].
    split; [|exact Hsub].
    rewrite seconds_hours_mins. apply inject_Z_sub.
  - intros y m d. rewrite single_lines. reflexivity.
Qed.

(** The window 20:00-06:00, through midnight. *)
Lemma C8_window_through_midnight_witness :
  exists hm_on hm_off,
    single_segments (at_time 20 0) (at_time 6 0) = [(ON, hm_on); (OFF, hm_off)] /\
    (seconds hm_off == inject_Z (sub (at_time 20 0) (at_time 6 0)))%Q /\
    (seconds hm_on == 86400 - inject_Z (sub (at_time 20 0) (at_time 6 0)))%Q /\
    sub (at_time 20 0) (at_time 6 0) = secs (at_time 20 0) - secs (at_time 6 0).
Proof.
  apply (proj1 C8_window_through_midnight (at_time 20 0) (at_time 6 0)).
  - apply valid_at_time; lia.
  - apply valid_at_time; lia.
  - apply same_date_at_time.
  - reflexivity.
Defined.

(** Against C8 as worded: on at 20:00 and off at 06:00 does not give an OFF
    duration of 10 hours and an ON duration of 14 hours. *)
Lemma C8_example_refuted :
  ~ exists hm_on hm_off,
      single_segments (at_time 20 0) (at_time 6 0) = [(ON, hm_on); (OFF, hm_off)] /\
      (seconds hm_off == 10 * 3600)%Q /\ (seconds hm_on == 14 * 3600)%Q.
Proof.
  intros (hm_on & hm_off & Hs & Hoff & _).
  vm_compute in Hs. injection Hs as <- <-. vm_compute in Hoff. discriminate.
Qed.

(** C6, as the code has it. With one window whose off time equals its on
    time the writer takes no policy from the caller: it writes the fixed
    always-on schedule, ON 24 hours 0 minutes and OFF 0 hours 0 minutes. *)
Theorem C6_equal_times_write_always_on now filename t (fs : gmap string string) :
  single_segments t t = [(ON, (24%Q, 0%Q)); (OFF, (0%Q, 0%Q))] /\
  exists text,
    write_witty_schedule_file now filename t t None None fs !! filename = Some text /\
    drop 5 (readlines text) = ["ON H24 M0" +:+ nl; "OFF H0 M0" +:+ nl].
Proof.
  assert (Hs : single_segments t t = [(ON, (24%Q, 0%Q)); (OFF, (0%Q, 0%Q))]).
  { unfold single_segments. now rewrite single_window_equal by apply sub_diag. }
  split; [exact Hs|].
  eexists. split; [apply write_single_lookup; now left|].
  rewrite readlines_written by apply single_chunks_lines.
  unfold single_chunks. now rewrite Hs.
Qed.

(** Against C6 as worded: on and off both at 06:00, and nothing else said,
    the always-on schedule is in the file. *)
Lemma C6_always_on_emitted :
  exists text,
    write_witty_schedule_file a_now "schedule.wpi" (at_time 6 0) (at_time 6 0) None None ∅
      !! "schedule.wpi" = Some text /\
    drop 5 (readlines text) = ["ON H24 M0" +:+ nl; "OFF H0 M0" +:+ nl].
Proof.
  eexists. split; [apply write_single_lookup; now left|]. vm_compute. reflexivity.
Qed.

(** ** Two windows *)

Lemma dual_window_day s1 e1 s2 e2 :
  let '(on_1, off_1, on_2, off_2) := dual_window s1 e1 s2 e2 in
  (seconds on_1 + (seconds off_1 + (seconds on_2 + (seconds off_2 + 0))) == 86400)%Q.
Proof.
  unfold dual_window. destruct (gt e2 s2);
    rewrite !seconds_hours_mins; change 0%Q with (inject_Z 0);
    rewrite <- !inject_Z_plus; apply inject_Z_injective;
    unfold timedelta_hours; lia.
Qed.

Lemma dual_segments_shape on off on_2 off_2 :
  exists a b c d,
    dual_segments on off on_2 off_2 = [(ON, a); (OFF, b); (ON, c); (OFF, d)] /\
    (durations (dual_segments on off on_2 off_2) == 86400)%Q.
Proof.
  unfold dual_segments.
  destruct (arrange on off on_2 off_2) as [[[s1 e1] s2] e2].
  pose proof (dual_window_day s1 e1 s2 e2) as Hday.
  destruct (dual_window s1 e1 s2 e2) as [[[a b] c] d].
  now exists a, b, c, d.
Qed.

(** C5, as the code has it. With two windows the writer checks nothing and
    raises nothing, whether the windows overlap or coincide: the call ends
    with the file written, closed by four segment lines ON, OFF, ON, OFF
    whose durations add up to 24 hours. *)
Theorem C5_dual_window_always_writes
    now filename on off on_2 off_2 (fs : gmap string string) :
  exists a b c d text,
    dual_segments on off on_2 off_2 = [(ON, a); (OFF, b); (ON, c); (OFF, d)] /\
    (durations (dual_segments on off on_2 off_2) == 86400)%Q /\
    write_witty_schedule_file now filename on off (Some on_2) (Some off_2) fs !! filename
    = Some text /\
    drop 7 (readlines text)
    = segment_line <$> [(ON, a); (OFF, b); (ON, c); (OFF, d)].
Proof.
  destruct (dual_segments_shape on off on_2 off_2) as (a & b & c & d & Hs & Hday).
  exists a, b, c, d. eexists. split; [exact Hs|]. split; [exact Hday|].
  split; [apply write_dual_lookup|].
  rewrite readlines_written by apply dual_chunks_lines.
  unfold dual_chunks. now rewrite Hs.
Qed.

(** Against C5 as worded: four equal times, and a second window inside the
    first, both overlap and are both written out as schedules, the latter
    with an OFF duration of minus four hours. *)
Lemma C5_overlap_written :
  (~ disjoint_windows (at_time 6 0) (at_time 6 0) (at_time 6 0) (at_time 6 0) /\
   exists text,
     write_witty_schedule_file a_now "schedule.wpi" (at_time 6 0) (at_time 6 0)
       (Some (at_time 6 0)) (Some (at_time 6 0)) ∅ !! "schedule.wpi" = Some text /\
     drop 7 (readlines text)
     = ["ON H0 M0" +:+ nl; "OFF H0 M0" +:+ nl; "ON H24 M0" +:+ nl; "OFF H0 M0" +:+ nl])
  /\ (~ disjoint_windows (at_time 6 0) (at_time 12 0) (at_time 8 0) (at_time 10 0) /\
     exists text,
       write_witty_schedule_file a_now "schedule.wpi" (at_time 6 0) (at_time 12 0)
         (Some (at_time 8 0)) (Some (at_time 10 0)) ∅ !! "schedule.wpi" = Some text /\
       drop 7 (readlines text)
       = ["ON H6 M0" +:+ nl; "OFF H-4 M0" +:+ nl; "ON H2 M0" +:+ nl; "OFF H20 M0" +:+ nl]).
Proof.
  split; split.
  - intros Hd. apply (Hd 21600); [lia|]. unfold within.
    change (secs (at_time 6 0)) with 21600. cbn [Z.ltb Z.compare Pos.compare Pos.compare_cont].
    lia.
  - eexists; split; [apply write_dual_lookup|]; vm_compute; reflexivity.
  - intros Hd. apply (Hd 28800); [lia|]. unfold within.
    change (secs (at_time 6 0)) with 21600. change (secs (at_time 12 0)) with 43200.
    change (secs (at_time 8 0)) with 28800. change (secs (at_time 10 0)) with 36000.
    cbn [Z.ltb Z.compare Pos.compare Pos.compare_cont]. lia.
  - eexists; split; [apply write_dual_lookup|]; vm_compute; reflexivity.
Qed.

Lemma same_date_refl a : same_date a a.
Proof. now repeat split. Qed.

Lemma same_date_via d a b : same_date d a -> same_date d b -> same_date a b.
Proof. intros (? & ? & ?) (? & ? & ?). repeat split; congruence. Qed.

Lemma window_length_later on off :
  valid on -> valid off -> secs on < secs off -> window_length on off = secs off - secs on.
Proof.
  intros Hon%secs_range Hoff%secs_range Hlt. unfold window_length.
  apply Z.mod_small. lia.
Qed.

Lemma window_length_wrapped on off :
  valid on -> valid off -> secs off <= secs on ->
  secs on <> secs off ->
  window_length on off = 86400 - (secs on - secs off).
Proof.
  intros Hon%secs_range Hoff%secs_range Hle Hne. unfold window_length.
  rewrite <- (Z.mod_add _ 1) by discriminate. rewrite Z.mod_small; lia.
Qed.

Section DualWindows.
Variables on off on_2 off_2 : datetime.
Hypothesis Von : valid on.
Hypothesis Voff : valid off.
Hypothesis Von_2 : valid on_2.
Hypothesis Voff_2 : valid off_2.
Hypothesis Soff : same_date on off.
Hypothesis Son_2 : same_date on on_2.
Hypothesis Soff_2 : same_date on off_2.
Hypothesis Hdisjoint : disjoint_windows on off on_2 off_2.

(** What disjointness says at the two opening times. *)
Lemma disjoint_order :
  (secs on < secs on_2 ->
     secs on < secs off <= secs on_2 /\
     (secs on_2 < secs off_2 \/ secs off_2 <= secs on)) /\
  (secs on_2 <= secs on ->
     secs on_2 < secs off_2 <= secs on /\
     (secs on < secs off \/ secs off <= secs on_2)).
Proof.
  pose proof (secs_range on Von). pose proof (secs_range off Voff).
  pose proof (secs_range on_2 Von_2). pose proof (secs_range off_2 Voff_2).
  pose proof (Hdisjoint (secs on)) as Hat. pose proof (Hdisjoint (secs on_2)) as Hat_2.
  unfold within in Hat, Hat_2.
  destruct (Z.ltb_spec (secs on) (secs off)), (Z.ltb_spec (secs on_2) (secs off_2)); lia.
Qed.

Lemma dual_segments_disjoint :
  exists a b c d,
    dual_segments on off on_2 off_2 = [(ON, a); (OFF, b); (ON, c); (OFF, d)] /\
    (0 < seconds a)%Q /\ (0 <= seconds b)%Q /\ (0 < seconds c)%Q /\ (0 <= seconds d)%Q /\
    (seconds a ==
       inject_Z (if lt on on_2 then window_length on off else window_length on_2 off_2))%Q /\
    (seconds c ==
       inject_Z (if lt on on_2 then window_length on_2 off_2 else window_length on off))%Q.
Proof.
  pose proof (same_date_refl on) as Son.
  pose proof (secs_range on Von). pose proof (secs_range off Voff).
  pose proof (secs_range on_2 Von_2). pose proof (secs_range off_2 Voff_2).
  destruct disjoint_order as [Hfst Hsnd].
  assert (Hsub : forall x y, same_date on x -> same_date on y -> sub x y = secs x - secs y).
  { intros x y Hx Hy. apply sub_same_date. now apply (same_date_via on). }
  assert (Hgt : forall x y, valid x -> valid y -> same_date on x -> same_date on y ->
                            gt x y = (secs y <? secs x)).
  { intros x y Vx Vy Hx Hy. apply gt_same_date; auto. now apply (same_date_via on). }
  assert (Hpos : forall z, 0 < z -> (0 < inject_Z z)%Q).
  { intros z Hz. change 0%Q with (inject_Z 0). now rewrite <- Zlt_Qlt. }
  assert (Hnn : forall z, 0 <= z -> (0 <= inject_Z z)%Q).
  { intros z Hz. change 0%Q with (inject_Z 0). now rewrite <- Zle_Qle. }
  unfold dual_segments, arrange.
  rewrite (lt_same_date on on_2), (Hgt off on), (Hgt off_2 on_2) by assumption.
  destruct (Z.ltb_spec (secs on) (secs on_2)) as [Hlt | Hge].
  - destruct (Hfst Hlt) as [Hw1 Hw2].
    rewrite (proj2 (Z.ltb_lt (secs on) (secs off))) by lia.
    unfold dual_window. rewrite (Hgt off_2 on_2) by assumption.
    destruct (Z.ltb_spec (secs on_2) (secs off_2)) as [Hl2 | Hg2];
      do 4 eexists; (split; [reflexivity|]);
      rewrite !seconds_hours_mins, !Hsub by assumption;
      unfold timedelta_hours;
      rewrite ?window_length_later, ?window_length_wrapped by (assumption || lia);
      repeat split; try (apply Hpos; lia); try (apply Hnn; lia);
      try reflexivity; apply inject_Z_injective; lia.
  - destruct (Hsnd Hge) as [Hw1 Hw2].
    rewrite (proj2 (Z.ltb_lt (secs on_2) (secs off_2))) by lia.
    unfold dual_window. rewrite (Hgt off on) by assumption.
    destruct (Z.ltb_spec (secs on) (secs off)) as [Hl2 | Hg2];
      do 4 eexists; (split; [reflexivity|]);
      rewrite !seconds_hours_mins, !Hsub by assumption;
      unfold timedelta_hours;
      rewrite ?window_length_later, ?window_length_wrapped by (assumption || lia);
      repeat split; try (apply Hpos; lia); try (apply Hnn; lia);
      try reflexivity; apply inject_Z_injective; lia.
Qed.
End DualWindows.

(** C2. Two valid windows on the same day that do not overlap give four
    segments ON, OFF, ON, OFF; the ON durations are positive and are the
    lengths of the two windows, the earlier one first, the OFF durations are
    not negative, and the four add up to 24 hours exactly; the four lines
    close the file. Windows 06:00-09:00 and 18:00-21:00, on any day, print
    ON 3h 0m, OFF 9h 0m, ON 3h 0m, OFF 9h 0m. *)
Theorem C2_dual_window_four_segments :
  (forall now filename on off on_2 off_2 (fs : gmap string string),
     valid on -> valid off -> valid on_2 -> valid off_2 ->
     same_date on off -> same_date on on_2 -> same_date on off_2 ->
     disjoint_windows on off on_2 off_2 ->
     exists a b c d,
       dual_segments on off on_2 off_2 = [(ON, a); (OFF, b); (ON, c); (OFF, d)] /\
       (durations [(ON, a); (OFF, b); (ON, c); (OFF, d)] == 86400)%Q /\
       (0 < seconds a)%Q /\ (0 <= seconds b)%Q /\ (0 < seconds c)%Q /\ (0 <= seconds d)%Q /\
       (seconds a ==
          inject_Z (if lt on on_2 then window_length on off else window_length on_2 off_2))%Q /\
       (seconds c ==
          inject_Z (if lt on on_2 then window_length on_2 off_2 else window_length on off))%Q /\
       exists text,
         write_witty_schedule_file now filename on off (Some on_2) (Some off_2) fs !! filename
         = Some text /\
         drop 7 (readlines text) = segment_line <$> [(ON, a); (OFF, b); (ON, c); (OFF, d)])
  /\ (forall y m d,
        segment_line <$>
          dual_segments (mkdatetime y m d 6 0 0) (mkdatetime y m d 9 0 0)
            (mkdatetime y m d 18 0 0) (mkdatetime y m d 21 0 0)
        = ["ON H3 M0" +:+ nl; "OFF H9 M0" +:+ nl; "ON H3 M0" +:+ nl; "OFF H9 M0" +:+ nl]).
Proof.
  split.
  - intros now filename on off on_2 off_2 fs Von Voff Von_2 Voff_2 Soff Son_2 Soff_2 Hdis.
    destruct (dual_segments_disjoint on off on_2 off_2) as
      (a & b & c & d & Hs & Ha & Hb & Hc & Hd & Hla & Hlc); try assumption.
    exists a, b, c, d. split; [exact Hs|].
    split.
    { destruct (dual_segments_shape on off on_2 off_2) as (_ & _ & _ & _ & _ & Hday).
      now rewrite Hs in Hday. }
    repeat (split; [assumption|]).
    eexists. split; [apply write_dual_lookup|].
    rewrite readlines_written by apply dual_chunks_lines.
    unfold dual_chunks. now rewrite Hs.
  - intros y m d. unfold dual_segments, arrange, lt, gt, cmp.
    cbn [year month day hour minute second]. rewrite !Z.compare_refl.
    cbn [Z.compare Pos.compare Pos.compare_cont].
    unfold dual_window, gt, cmp.
    cbn [year month day hour minute second]. rewrite !Z.compare_refl.
    cbn [Z.compare Pos.compare Pos.compare_cont].
    rewrite !(sub_same_date (mkdatetime y m d _ _ _) (mkdatetime y m d _ _ _))
      by now repeat split.
    reflexivity.
Qed.

Lemma disjoint_morning_evening :
  disjoint_windows (at_time 6 0) (at_time 9 0) (at_time 18 0) (at_time 21 0).
Proof.
  intros t Ht. unfold within.
  change (secs (at_time 6 0)) with 21600. change (secs (at_time 9 0)) with 32400.
  change (secs (at_time 18 0)) with 64800. change (secs (at_time 21 0)) with 75600.
  cbn [Z.ltb Z.compare Pos.compare Pos.compare_cont]. lia.
Defined.

(** The four segments of the windows 06:00-09:00 and 18:00-21:00. *)
Lemma C2_dual_window_four_segments_witness :
  exists a b c d,
    dual_segments (at_time 6 0) (at_time 9 0) (at_time 18 0) (at_time 21 0)
    = [(ON, a); (OFF, b); (ON, c); (OFF, d)] /\
    (durations [(ON, a); (OFF, b); (ON, c); (OFF, d)] == 86400)%Q /\
    (0 < seconds a)%Q /\ (0 <= seconds b)%Q /\ (0 < seconds c)%Q /\ (0 <= seconds d)%Q /\
    (seconds a ==
       inject_Z (if lt (at_time 6 0) (at_time 18 0)
                 then window_length (at_time 6 0) (at_time 9 0)
                 else window_length (at_time 18 0) (at_time 21 0)))%Q /\
    (seconds c ==
       inject_Z (if lt (at_time 6 0) (at_time 18 0)
                 then window_length (at_time 18 0) (at_time 21 0)
                 else window_length (at_time 6 0) (at_time 9 0)))%Q /\
    exists text,
      write_witty_schedule_file a_now "schedule.wpi" (at_time 6 0) (at_time 9 0)
        (Some (at_time 18 0)) (Some (at_time 21 0)) ∅ !! "schedule.wpi" = Some text /\
      drop 7 (readlines text) = segment_line <$> [(ON, a); (OFF, b); (ON, c); (OFF, d)].
Proof.
  apply (proj1 C2_dual_window_four_segments a_now "schedule.wpi"
           (at_time 6 0) (at_time 9 0) (at_time 18 0) (at_time 21 0) ∅).
  - apply valid_at_time; lia.
  - apply valid_at_time; lia.
  - apply valid_at_time; lia.
  - apply valid_at_time; lia.
  - apply same_date_at_time.
  - apply same_date_at_time.
  - apply same_date_at_time.
  - apply disjoint_morning_evening.
Defined.

(** ** The reader on any text *)

Lemma startswith_occurs c s p :
  startswith s p = true -> occurs c p = true -> occurs c s = true.
Proof.
  revert s. induction p as [|a p IH]; intros s Hs Hc; [discriminate|].
  destruct s as [|b s]; [discriminate|]. cbn in *.
  apply andb_true_iff in Hs as [Hb Hs]. apply Ascii.eqb_eq in Hb as ->.
  destruct (Ascii.eqb a c); [reflexivity|]. cbn in *. now apply IH.
Qed.

Lemma contains_occurs c key s :
  contains key s = true -> occurs c key = true -> occurs c s = true.
Proof.
  intros Hs Hc. induction s as [|b s IH].
  - cbn in Hs. rewrite orb_false_r in Hs. now apply (startswith_occurs c) in Hs.
  - cbn [contains] in Hs. apply orb_true_iff in Hs as [Hs | Hs].
    + now apply (startswith_occurs c) in Hs.
    + cbn. rewrite (IH Hs). apply orb_true_r.
Qed.

Lemma split_nonempty c s : exists w ws, split c s = w :: ws.
Proof.
  induction s as [|b s (w & ws & IH)]; cbn; [now eexists _, _|].
  destruct (Ascii.eqb b c); [now eexists _, _|]. rewrite IH. now eexists _, _.
Qed.

Lemma split_occurs c s :
  occurs c s = true -> exists w1 w2 ws, split c s = w1 :: w2 :: ws.
Proof.
  induction s as [|b s IH]; [discriminate|]. cbn.
  destruct (Ascii.eqb b c); cbn.
  - intros _. destruct (split_nonempty c s) as (w & ws & ->). now eexists _, _, _.
  - intros (w1 & w2 & ws & ->)%IH. now eexists _, _, _.
Qed.

Lemma int_raise x e : PyInt.int x = Raise e -> e = ValueError.
Proof. unfold PyInt.int. destruct (PyInt.parse x); congruence. Qed.

Lemma mapM_int_raise l e : mapM PyInt.int l = Raise e -> e = ValueError.
Proof.
  induction l as [|x l IH]; [discriminate|].
  cbn [mapM mbind result_bind mret result_ret].
  destruct (PyInt.int x) eqn:Hx; [|intros [= <-]; now apply int_raise in Hx].
  destruct (mapM PyInt.int l); [discriminate|]. intros [= <-]. now apply IH.
Qed.

(** On a line with an equals sign the value is there to be read: the only
    failure is the [ValueError] of [int] or of the unpacking. *)
Lemma hour_min_raise line e :
  occurs "=" line = true -> hour_min line = Raise e -> e = ValueError.
Proof.
  intros (w1 & w2 & ws & Hsp)%split_occurs. unfold hour_min. rewrite Hsp.
  cbn [index lookup list_lookup mbind result_bind].
  destruct (split_nonempty LF w2) as (v & vs & ->).
  cbn [index lookup list_lookup mbind result_bind].
  destruct (mapM PyInt.int (split ":" v)) as [xs|e'] eqn:Hm; cbn.
  - destruct xs as [|h [|m [|? ?]]]; congruence.
  - intros [= <-]. now apply mapM_int_raise in Hm.
Qed.

Lemma has_key_equals line : has_key line = true -> occurs "=" line = true.
Proof.
  unfold has_key, keys. cbn [existsb]. rewrite !orb_true_iff.
  intros [H | [H | [H | [H | H]]]]; try discriminate;
    now apply (contains_occurs "=") in H.
Qed.

Lemma read_line_no_key line st : has_key line = false -> read_line line st = Ok st.
Proof.
  unfold has_key, keys. cbn [existsb]. rewrite !orb_false_iff.
  intros (H1 & H2 & H3 & H4 & _). unfold read_line. now rewrite H1, H2, H3, H4.
Qed.

(** What one turn of the loop can do: leave the variables alone, store the
    value of the line under the first key the line holds, or raise what
    reading the value raised. *)
Lemma read_line_cases line st :
  (has_key line = false /\ read_line line st = Ok st) \/
  (has_key line = true /\
   ((exists e, hour_min line = Raise e /\ read_line line st = Raise e) \/
    (exists hm st', hour_min line = Ok hm /\ read_line line st = Ok st' /\
       (contains "on_time=" line = false ->
          on_hour st' = on_hour st /\ on_min st' = on_min st) /\
       (contains "off_time=" line = false ->
          off_hour st' = off_hour st /\ off_min st' = off_min st) /\
       (contains "on_time_2=" line = false ->
          on_hour_2 st' = on_hour_2 st /\ on_min_2 st' = on_min_2 st) /\
       (contains "off_time_2=" line = false ->
          off_hour_2 st' = off_hour_2 st /\ off_min_2 st' = off_min_2 st)))).
Proof.
  destruct (has_key line) eqn:Hk; [right | left; split; [reflexivity | now apply read_line_no_key]].
  split; [reflexivity|].
  unfold has_key, keys in Hk. cbn [existsb] in Hk. unfold read_line.
  destruct (hour_min line) as [[h m]|e] eqn:Hhm.
  - right. exists (h, m).
    destruct (contains "on_time=" line) eqn:H1; cbn in Hk |- *.
    { eexists. repeat split; congruence. }
    destruct (contains "off_time=" line) eqn:H2; cbn in Hk |- *.
    { eexists. repeat split; congruence. }
    destruct (contains "on_time_2=" line) eqn:H3; cbn in Hk |- *.
    { eexists. repeat split; congruence. }
    destruct (contains "off_time_2=" line) eqn:H4; cbn in Hk |- *.
    { eexists. repeat split; congruence. }
    discriminate.
  - left. exists e. split; [reflexivity|].
    destruct (contains "on_time=" line); [reflexivity|].
    destruct (contains "off_time=" line); [reflexivity|].
    destruct (contains "on_time_2=" line); [reflexivity|].
    destruct (contains "off_time_2=" line); [reflexivity|].
    discriminate.
Qed.

Lemma read_lines_keep lines : forall st st',
  read_lines lines st = Ok st' ->
  (Forall (fun l => contains "on_time=" l = false) lines ->
     on_hour st' = on_hour st /\ on_min st' = on_min st) /\
  (Forall (fun l => contains "off_time=" l = false) lines ->
     off_hour st' = off_hour st /\ off_min st' = off_min st) /\
  (Forall (fun l => contains "on_time_2=" l = false) lines ->
     on_hour_2 st' = on_hour_2 st /\ on_min_2 st' = on_min_2 st) /\
  (Forall (fun l => contains "off_time_2=" l = false) lines ->
     off_hour_2 st' = off_hour_2 st /\ off_min_2 st' = off_min_2 st).
Proof.
  induction lines as [|line lines IH]; intros st st' Hr.
  - injection Hr as <-. now repeat split.
  - cbn [read_lines] in Hr.
    destruct (read_line_cases line st)
      as [[_ Hl] | [_ [(e & _ & Hl) | (hm & st1 & _ & Hl & K1 & K2 & K3 & K4)]]];
      rewrite Hl in Hr; cbn [mbind result_bind] in Hr; [ | discriminate | ].
    + destruct (IH _ _ Hr) as (I1 & I2 & I3 & I4).
      split; [|split; [|split]]; intros HF; apply Forall_cons in HF as [_ HF]; auto.
    + destruct (IH _ _ Hr) as (I1 & I2 & I3 & I4).
      split; [|split; [|split]]; intros HF; apply Forall_cons in HF as [Hc HF].
      * destruct (I1 HF) as [-> ->]. now apply K1.
      * destruct (I2 HF) as [-> ->]. now apply K2.
      * destruct (I3 HF) as [-> ->]. now apply K3.
      * destruct (I4 HF) as [-> ->]. now apply K4.
Qed.

Lemma read_lines_total lines : forall st,
  (forall line, line ∈ lines -> has_key line = true -> exists hm, hour_min line = Ok hm) ->
  exists st', read_lines lines st = Ok st'.
Proof.
  induction lines as [|line lines IH]; intros st Hp; [now eexists|].
  cbn [read_lines].
  destruct (read_line_cases line st)
    as [[_ Hl] | [Hk [(e & He & _) | (hm & st1 & _ & Hl & _)]]].
  - rewrite Hl. cbn [mbind result_bind]. apply IH.
    intros l Hin. apply Hp. now right.
  - destruct (Hp line) as (hm & Hhm); [now left | exact Hk | congruence].
  - rewrite Hl. cbn [mbind result_bind]. apply IH.
    intros l Hin. apply Hp. now right.
Qed.

Lemma read_lines_raise lines : forall st e,
  read_lines lines st = Raise e ->
  exists line, line ∈ lines /\ has_key line = true /\ hour_min line = Raise e.
Proof.
  induction lines as [|line lines IH]; intros st e Hr; [discriminate|].
  cbn [read_lines] in Hr.
  destruct (read_line_cases line st)
    as [[_ Hl] | [Hk [(e' & He & Hl) | (hm & st1 & _ & Hl & _)]]];
    rewrite Hl in Hr; cbn [mbind result_bind] in Hr.
  - destruct (IH _ _ Hr) as (l & Hin & H). exists l. split; [now right | exact H].
  - injection Hr as ->. exists line. split; [now left | now split].
  - destruct (IH _ _ Hr) as (l & Hin & H). exists l. split; [now right | exact H].
Qed.

Lemma read_lines_bad_value lines : forall st line e,
  line ∈ lines -> has_key line = true -> hour_min line = Raise e ->
  read_lines lines st = Raise ValueError.
Proof.
  intros st line e Hin Hk Hhm.
  destruct (read_lines lines st) as [st'|e'] eqn:Hr.
  - exfalso. revert st st' Hr.
    induction lines as [|l lines IH]; intros st st' Hr; [inversion Hin|].
    cbn [read_lines] in Hr.
    destruct (read_line_cases l st)
      as [[Hnk Hl] | [_ [(e' & He' & Hl) | (hm & st1 & Hok & Hl & _)]]];
      rewrite Hl in Hr; cbn [mbind result_bind] in Hr; [ | discriminate | ].
    + apply elem_of_cons in Hin as [-> | Hin]; [congruence | eauto].
    + apply elem_of_cons in Hin as [-> | Hin]; [congruence | eauto].
  - destruct (read_lines_raise _ _ _ Hr) as (l & _ & Hk' & Hl).
    f_equal. apply (hour_min_raise l); [now apply has_key_equals | exact Hl].
Qed.

Lemma read_unfold filename (fs : gmap string string) text :
  fs !! filename = Some text ->
  read_witty_schedule_file filename fs
  = st ← read_lines (readlines text) init;
    Ok (Tuple (on_hour st, on_min st) (off_hour st, off_min st)
          (on_hour_2 st, on_min_2 st) (off_hour_2 st, off_min_2 st)).
Proof. intros Hfs. unfold read_witty_schedule_file. now rewrite Hfs. Qed.

(** C4, as the code has it. A file without an [on_time=] line is read
    without error, its on pair coming back as [(None, None)], provided the
    key lines it does have hold readable values; a file with an [on_time=]
    line whose value is not two integers around a colon makes the reader
    fail with [ValueError], which reaches the caller. *)
Theorem C4_on_time_missing_or_unreadable filename (fs : gmap string string) text :
  fs !! filename = Some text ->
  (key_absent "on_time=" text ->
   (forall line, line ∈ readlines text -> has_key line = true ->
      exists hm, hour_min line = Ok hm) ->
   exists off on_2 off_2,
     read_witty_schedule_file filename fs = Ok (Tuple (None, None) off on_2 off_2))
  /\ (forall line e,
        line ∈ readlines text -> contains "on_time=" line = true ->
        hour_min line = Raise e ->
        read_witty_schedule_file filename fs = Raise ValueError).
Proof.
  intros Hfs. rewrite (read_unfold _ _ _ Hfs). split.
  - intros Habs Hp.
    destruct (read_lines_total (readlines text) init Hp) as (st & Hr).
    rewrite Hr. cbn [mbind result_bind].
    destruct (read_lines_keep _ _ _ Hr) as (K & _).
    destruct (K Habs) as [-> ->]. now eexists _, _, _.
  - intros line e Hin Hc Hhm.
    rewrite (read_lines_bad_value _ init line e); [reflexivity | exact Hin | | exact Hhm].
    unfold has_key, keys. cbn [existsb]. now rewrite Hc.
Qed.

(** Both halves on the two example files. *)
Lemma C4_on_time_missing_or_unreadable_witness :
  (exists off on_2 off_2,
     read_witty_schedule_file "schedule.wpi" {["schedule.wpi" := text_without_on_time]}
     = Ok (Tuple (None, None) off on_2 off_2))
  /\ read_witty_schedule_file "schedule.wpi" {["schedule.wpi" := text_with_bad_on_time]}
     = Raise ValueError.
Proof.
  split.
  - apply (proj1 (C4_on_time_missing_or_unreadable "schedule.wpi"
                    {["schedule.wpi" := text_without_on_time]} text_without_on_time
                    (lookup_singleton_eq _ _))).
    + unfold key_absent. repeat (constructor; [reflexivity|]). constructor.
    + intros line Hin.
      repeat (apply elem_of_cons in Hin as [-> | Hin]);
        try (intros Hk; discriminate Hk); try (intros _; eexists; reflexivity).
      inversion Hin.
  - apply (proj2 (C4_on_time_missing_or_unreadable "schedule.wpi"
                    {["schedule.wpi" := text_with_bad_on_time]} text_with_bad_on_time
                    (lookup_singleton_eq _ _))
             ("# on_time=06.00" +:+ nl) ValueError).
    + apply list_elem_of_further, list_elem_of_here.
    + reflexivity.
    + reflexivity.
Defined.

(** Against C4 as worded: the file without its [on_time=] line is read to
    the end and the tuple is returned. *)
Lemma C4_missing_on_time_is_read :
  key_absent "on_time=" text_without_on_time /\
  read_witty_schedule_file "schedule.wpi" {["schedule.wpi" := text_without_on_time]}
  = Ok (Tuple (None, None) (Some 18, Some 0) (None, None) (None, None)).
Proof.
  split.
  - unfold key_absent. repeat (constructor; [reflexivity|]). constructor.
  - unfold read_witty_schedule_file. rewrite lookup_singleton_eq. reflexivity.
Qed.




(** * The rest of [io_py.py]: PCS lines and crontab files *)

Import PyText Pcs Crontab.

(** ** [int(str(z))] *)

Lemma digits_of_uint_acc (d : Decimal.uint) : forall acc : positive,
  PyInt.digits (Z.pos acc) true (NilEmpty.string_of_uint d)
  = Some (Z.pos (Pos.of_uint_acc d acc)).
Proof.
  induction d; intros acc; cbn [NilEmpty.string_of_uint Pos.of_uint_acc];
    [reflexivity | ..];
    erewrite digits_step by reflexivity;
    match goal with
    | |- PyInt.digits ?z _ _ = Some (Z.pos (Pos.of_uint_acc _ ?p)) =>
        replace z with (Z.pos p) by lia
    end; apply IHd.
Qed.

Lemma digits_of_uint (d : Decimal.uint) :
  PyInt.digits 0 true (NilEmpty.string_of_uint d) = Some (Z.of_N (Pos.of_uint d)).
Proof.
  induction d; cbn [NilEmpty.string_of_uint Pos.of_uint];
    [reflexivity | ..];
    erewrite digits_step by reflexivity; [exact IHd | ..];
    apply (digits_of_uint_acc d).
Qed.

Lemma digits_first (d : Decimal.uint) acc :
  d <> Decimal.Nil ->
  PyInt.digits acc false (NilEmpty.string_of_uint d)
  = PyInt.digits acc true (NilEmpty.string_of_uint d).
Proof. destruct d; [congruence | reflexivity ..]. Qed.

Lemma parse_of_uint (d : Decimal.uint) :
  d <> Decimal.Nil ->
  PyInt.parse (NilEmpty.string_of_uint d) = Some (Z.of_N (Pos.of_uint d)).
Proof.
  intros Hd. rewrite <- digits_of_uint, <- (digits_first d 0 Hd).
  destruct d; [congruence | reflexivity ..].
Qed.

(** An [int] printed and read again is the same [int]. *)
Lemma int_str_int z : PyInt.int (str_int z) = Ok z.
Proof.
  unfold PyInt.int, str_int. destruct z as [|p|p]; [reflexivity | |].
  - cbn [Z.to_int NilZero.string_of_int].
    pose proof (Unsigned.to_uint_nonnil p) as Hn.
    assert (Hs : NilZero.string_of_uint (Pos.to_uint p) = NilEmpty.string_of_uint (Pos.to_uint p))
      by (destruct (Pos.to_uint p); [congruence | reflexivity ..]).
    rewrite Hs, parse_of_uint, DecimalPos.Unsigned.of_to by assumption. reflexivity.
  - cbn [Z.to_int NilZero.string_of_int].
    pose proof (Unsigned.to_uint_nonnil p) as Hn.
    assert (Hs : NilZero.string_of_uint (Pos.to_uint p) = NilEmpty.string_of_uint (Pos.to_uint p))
      by (destruct (Pos.to_uint p); [congruence | reflexivity ..]).
    rewrite Hs. unfold PyInt.parse. cbn [PyInt.lstrip]. cbn [PyInt.is_space Ascii.is_space].
    rewrite digits_first, digits_of_uint, DecimalPos.Unsigned.of_to by assumption.
    reflexivity.
Qed.

Lemma str_int_numeric z : chars_in is_numeric (str_int z) = true.
Proof. apply string_of_int_numeric. Qed.

Lemma str_int_occurs z c : is_numeric c = false -> occurs c (str_int z) = false.
Proof. intros Hc. apply (chars_in_occurs is_numeric); [apply str_int_numeric | exact Hc]. Qed.

(** ** Text mode and separators *)

Lemma universal_newlines_id s : occurs CR s = false -> universal_newlines s = s.
Proof.
  induction s as [|c s IH]; [reflexivity|]. cbn [occurs universal_newlines].
  intros [Hc Hs]%orb_false_iff. now rewrite Hc, (IH Hs).
Qed.

Lemma occurs_written c chunks :
  Forall (fun chunk => occurs c chunk = false) chunks -> occurs c (written chunks) = false.
Proof.
  induction 1 as [|chunk chunks Hc _ IH]; [reflexivity|].
  cbn [written foldr]. rewrite occurs_app, Hc. exact IH.
Qed.

Lemma contains_no_char c key s :
  occurs c key = true -> occurs c s = false -> contains key s = false.
Proof.
  intros Hk Hs. destruct (contains key s) eqn:Hc; [|reflexivity].
  apply (contains_occurs c) in Hc; congruence.
Qed.

Lemma startswith_no_char c key s :
  occurs c key = true -> occurs c s = false -> startswith s key = false.
Proof.
  intros Hk Hs. destruct (startswith s key) eqn:Hc; [|reflexivity].
  apply (startswith_occurs c) in Hc; congruence.
Qed.

Lemma split_str_absent c sep s :
  occurs c sep = true -> occurs c s = false -> split_str_from sep 0 s = [s].
Proof.
  intros Hsep. induction s as [|b s IH]; [reflexivity|]. intros Hs.
  cbn [split_str_from]. rewrite (startswith_no_char c) by assumption.
  cbn [occurs] in Hs. apply orb_false_iff in Hs as [_ Hs]. now rewrite (IH Hs).
Qed.

Lemma split_str_nonempty sep s : forall skip, split_str_from sep skip s <> [].
Proof.
  induction s as [|b s IH]; intros skip; [discriminate|].
  cbn [split_str_from]. destruct skip; [|apply IH].
  destruct (startswith _ _); [discriminate|].
  destruct (split_str_from sep 0 s); discriminate.
Qed.

Lemma index_last_Ok {A} (l : list A) : l <> [] -> exists a, index_last l = Ok a.
Proof.
  intros Hl. unfold index_last. destruct (last l) eqn:Hlast; [now eexists|].
  apply last_None in Hlast. congruence.
Qed.

(** ** A PCS line, written and read *)

Section PcsLines.
Variable V : string.
Hypothesis HV : occurs "=" V = false.

Lemma after_x_key : index_last (split_str "x=" ("x=" +:+ V)) = Ok V.
Proof.
  unfold split_str. cbn [String.append split_str_from startswith String.length Nat.sub].
  cbn. now rewrite (split_str_absent "=") by (reflexivity || assumption).
Qed.

Lemma after_y_key : index_last (split_str "y=" ("y=" +:+ V)) = Ok V.
Proof.
  unfold split_str. cbn.
  now rewrite (split_str_absent "=") by (reflexivity || assumption).
Qed.

Lemma after_orientation_key :
  index_last (split_str "orientation=" ("orientation=" +:+ V)) = Ok V.
Proof.
  unfold split_str. cbn.
  now rewrite (split_str_absent "=") by (reflexivity || assumption).
Qed.

Lemma orientation_line_keys :
  contains "x=" ("orientation=" +:+ V) = false /\
  contains "y=" ("orientation=" +:+ V) = false /\
  contains "orientation=" ("orientation=" +:+ V) = true.
Proof.
  repeat split; try reflexivity; cbn;
    now apply (contains_no_char "=").
Qed.
End PcsLines.

Lemma first_line body : occurs LF body = false -> index (split LF (body +:+ nl)) 0 = Ok body.
Proof. intros Hb. unfold nl. now rewrite split_sep. Qed.

Lemma int_pair_str a b : int_pair (str_int a +:+ "," +:+ str_int b) = Ok (a, b).
Proof.
  unfold int_pair.
  change (str_int a +:+ "," +:+ str_int b) with (str_int a +:+ String "," (str_int b)).
  rewrite split_sep, split_absent by now apply str_int_occurs.
  cbn [mapM mbind result_bind mret result_ret]. now rewrite !int_str_int.
Qed.

Lemma coords_plain a b c :
  is_numeric c = false -> Ascii.eqb "," c = false ->
  occurs c (str_int a +:+ "," +:+ str_int b) = false.
Proof.
  intros Hn Hc. rewrite !occurs_app. cbn [occurs].
  now rewrite Hc, !str_int_occurs.
Qed.

Lemma after_key_coords key a b :
  index_last (split_str key (key +:+ str_int a +:+ "," +:+ str_int b +:+ nl))
  = Ok (str_int a +:+ "," +:+ str_int b +:+ nl) ->
  after_key key (key +:+ str_int a +:+ "," +:+ str_int b +:+ nl)
  = Ok (str_int a +:+ "," +:+ str_int b).
Proof.
  intros Hk. unfold after_key. rewrite Hk. cbn [mbind result_bind].
  replace (str_int a +:+ "," +:+ str_int b +:+ nl)
    with ((str_int a +:+ "," +:+ str_int b) +:+ nl) by now rewrite !append_assoc.
  apply first_line. now apply coords_plain.
Qed.

Lemma coords_line_plain a b c :
  is_numeric c = false -> Ascii.eqb "," c = false -> Ascii.eqb LF c = false ->
  occurs c (str_int a +:+ "," +:+ str_int b +:+ nl) = false.
Proof.
  intros Hn Hc Hl. rewrite !occurs_app. cbn [occurs nl].
  now rewrite Hc, Hl, !str_int_occurs.
Qed.

Lemma pcs_read_x a b st :
  pcs_read_line ("x=" +:+ str_int a +:+ "," +:+ str_int b +:+ nl) st
  = Ok (mkpcs (Some a) (Some b) (l_y0 st) (l_y1 st) (l_orientation st)).
Proof.
  unfold pcs_read_line.
  change (contains "x=" ("x=" +:+ str_int a +:+ "," +:+ str_int b +:+ nl)) with true.
  cbn iota. rewrite after_key_coords by (apply after_x_key; now apply coords_line_plain).
  cbn [mbind result_bind]. now rewrite int_pair_str.
Qed.

Lemma pcs_read_y a b st :
  pcs_read_line ("y=" +:+ str_int a +:+ "," +:+ str_int b +:+ nl) st
  = Ok (mkpcs (l_x0 st) (l_x1 st) (Some a) (Some b) (l_orientation st)).
Proof.
  unfold pcs_read_line.
  assert (Hx : contains "x=" ("y=" +:+ str_int a +:+ "," +:+ str_int b +:+ nl) = false).
  { apply contains_absent. rewrite occurs_app. now rewrite coords_line_plain. }
  rewrite Hx.
  change (contains "y=" ("y=" +:+ str_int a +:+ "," +:+ str_int b +:+ nl)) with true.
  cbn iota. rewrite after_key_coords by (apply after_y_key; now apply coords_line_plain).
  cbn [mbind result_bind]. now rewrite int_pair_str.
Qed.

Lemma pcs_read_orientation o st :
  occurs "=" o = false -> occurs LF o = false ->
  pcs_read_line ("orientation=" +:+ o +:+ nl) st
  = Ok (mkpcs (l_x0 st) (l_x1 st) (l_y0 st) (l_y1 st) (Some o)).
Proof.
  intros He Hl. unfold pcs_read_line.
  assert (HV : occurs "=" (o +:+ nl) = false) by now rewrite occurs_app, He.
  destruct (orientation_line_keys _ HV) as (-> & -> & ->).
  unfold after_key. rewrite after_orientation_key by assumption.
  cbn [mbind result_bind]. now rewrite first_line.
Qed.

Lemma pcs_read_chunks line :
  occurs "=" (normal_orientation line) = false ->
  occurs LF (normal_orientation line) = false ->
  pcs_read_lines (pcs_chunks line) pcs_init
  = Ok (mkpcs (Some (int_round (x0 line))) (Some (int_round (x1 line)))
          (Some (int_round (y0 line))) (Some (int_round (y1 line)))
          (Some (normal_orientation line))).
Proof.
  intros He Hl. unfold pcs_chunks. cbn [pcs_read_lines].
  rewrite pcs_read_x. cbn [mbind result_bind].
  rewrite pcs_read_y. cbn [mbind result_bind].
  now rewrite pcs_read_orientation.
Qed.

Lemma pcs_chunks_lines line :
  occurs LF (normal_orientation line) = false -> Forall is_line (pcs_chunks line).
Proof.
  intros Hl. unfold pcs_chunks. repeat apply Forall_cons_2; try apply Forall_nil_2.
  - apply is_line_app; [reflexivity|]. apply is_line_app; [now apply str_int_occurs|].
    apply is_line_app; [reflexivity|]. apply is_line_app; [now apply str_int_occurs|].
    apply is_line_nl.
  - apply is_line_app; [reflexivity|]. apply is_line_app; [now apply str_int_occurs|].
    apply is_line_app; [reflexivity|]. apply is_line_app; [now apply str_int_occurs|].
    apply is_line_nl.
  - apply is_line_app; [reflexivity|]. apply is_line_app; [assumption | apply is_line_nl].
Qed.

Lemma pcs_chunks_no_CR line :
  occurs CR (normal_orientation line) = false ->
  occurs CR (written (pcs_chunks line)) = false.
Proof.
  intros Hc. apply occurs_written. unfold pcs_chunks.
  repeat apply Forall_cons_2; try apply Forall_nil_2.
  - rewrite occurs_app. now rewrite coords_line_plain.
  - rewrite occurs_app. now rewrite coords_line_plain.
  - rewrite !occurs_app. now rewrite Hc.
Qed.

Lemma int_round_inject z : int_round (inject_Z z) = z.
Proof. apply round_half_even_inject. Qed.

Import Samples Plain.

Lemma pcs_load_saved line filename color id (fs : gmap string string) :
  occurs "=" (normal_orientation line) = false ->
  occurs LF (normal_orientation line) = false ->
  occurs CR (normal_orientation line) = false ->
  load_pcs_line filename color id (save_pcs_line line filename fs)
  = Returns (Some (mkLineOnImage
      (inject_Z (int_round (x0 line))) (inject_Z (int_round (y0 line)))
      (inject_Z (int_round (x1 line))) (inject_Z (int_round (y1 line)))
      (normal_orientation line) color id)).
Proof.
  intros He Hl Hc. unfold load_pcs_line, save_pcs_line. rewrite lookup_insert_eq.
  rewrite universal_newlines_id by now apply pcs_chunks_no_CR.
  rewrite readlines_written by now apply pcs_chunks_lines.
  now rewrite pcs_read_chunks.
Qed.

(** X1. A line saved with [save_pcs_line] (or [save_light_dil_line]) and
    loaded with [load_pcs_line] (or [load_light_dil_line]) comes back with
    its four coordinates rounded half-to-even to integers, its orientation
    unchanged, and the colour and id of the call, provided the orientation
    holds no equals sign, line feed or carriage return. *)
Theorem pcs_save_load_round_trip line filename color id (fs : gmap string string) :
  occurs "=" (normal_orientation line) = false ->
  occurs LF (normal_orientation line) = false ->
  occurs CR (normal_orientation line) = false ->
  load_pcs_line filename color id (save_pcs_line line filename fs)
  = Returns (Some (mkLineOnImage
      (inject_Z (int_round (x0 line))) (inject_Z (int_round (y0 line)))
      (inject_Z (int_round (x1 line))) (inject_Z (int_round (y1 line)))
      (normal_orientation line) color id))
  /\ load_light_dil_line filename color id (save_light_dil_line line filename fs)
     = load_pcs_line filename color id (save_pcs_line line filename fs).
Proof. intros He Hl Hc. split; [now apply pcs_load_saved | reflexivity]. Qed.

(** The sample line, with its halves 2.5 and -3.5, comes back as
    2, -4, 100, 3. *)
Lemma pcs_save_load_round_trip_witness :
  load_pcs_line "pcs.txt" "red" "l1" (save_pcs_line a_line "pcs.txt" ∅)
  = Returns (Some (mkLineOnImage
      (inject_Z (int_round (5 # 2))) (inject_Z (int_round (-7 # 2)))
      (inject_Z (int_round 100)) (inject_Z (int_round 3)) "right" "red" "l1"))
  /\ load_light_dil_line "pcs.txt" "red" "l1" (save_light_dil_line a_line "pcs.txt" ∅)
     = load_pcs_line "pcs.txt" "red" "l1" (save_pcs_line a_line "pcs.txt" ∅).
Proof.
  apply (pcs_save_load_round_trip a_line "pcs.txt" "red" "l1" ∅); reflexivity.
Defined.

(** X2. Saving the line that was loaded writes the file that was read:
    after a first save, loading and saving again changes nothing. *)
Theorem pcs_load_save_fixpoint line filename color id (fs : gmap string string) :
  occurs "=" (normal_orientation line) = false ->
  occurs LF (normal_orientation line) = false ->
  occurs CR (normal_orientation line) = false ->
  exists loaded_line,
    load_pcs_line filename color id (save_pcs_line line filename fs)
    = Returns (Some loaded_line) /\
    save_pcs_line loaded_line filename (save_pcs_line line filename fs)
    = save_pcs_line line filename fs.
Proof.
  intros He Hl Hc. eexists. split; [now apply pcs_load_saved|].
  unfold save_pcs_line, pcs_chunks. cbn [x0 y0 x1 y1 normal_orientation].
  rewrite !int_round_inject. apply insert_insert_eq.
Qed.

Lemma pcs_load_save_fixpoint_witness :
  exists loaded_line,
    load_pcs_line "pcs.txt" "red" "l1" (save_pcs_line a_line "pcs.txt" ∅)
    = Returns (Some loaded_line) /\
    save_pcs_line loaded_line "pcs.txt" (save_pcs_line a_line "pcs.txt" ∅)
    = save_pcs_line a_line "pcs.txt" ∅.
Proof.
  apply (pcs_load_save_fixpoint a_line "pcs.txt" "red" "l1" ∅); reflexivity.
Defined.

(** ** [load_pcs_line] on any file *)

Lemma after_key_Ok key line : exists v, after_key key line = Ok v.
Proof.
  unfold after_key.
  destruct (index_last_Ok (split_str key line)) as (rhs & ->);
    [apply split_str_nonempty|].
  cbn [mbind result_bind]. destruct (split_nonempty LF rhs) as (v & vs & ->).
  now eexists.
Qed.

Lemma int_pair_raise v e : int_pair v = Raise e -> e = ValueError.
Proof.
  unfold int_pair. destruct (mapM PyInt.int (split "," v)) as [xs|e'] eqn:Hm;
    cbn [mbind result_bind].
  - destruct xs as [|a [|b [|? ?]]]; congruence.
  - intros [= <-]. now apply mapM_int_raise in Hm.
Qed.

(** One turn of the loop raises [ValueError] or binds the names of the
    first key the line holds, and no others. *)
Lemma pcs_read_line_spec line st :
  pcs_read_line line st = Raise ValueError \/
  exists st',
    pcs_read_line line st = Ok st' /\
    (contains "x=" line = false -> l_x0 st' = l_x0 st /\ l_x1 st' = l_x1 st) /\
    (contains "y=" line = false -> l_y0 st' = l_y0 st /\ l_y1 st' = l_y1 st) /\
    (contains "orientation=" line = false -> l_orientation st' = l_orientation st).
Proof.
  unfold pcs_read_line.
  destruct (contains "x=" line) eqn:Hx.
  { destruct (after_key_Ok "x=" line) as (v & ->). cbn [mbind result_bind].
    destruct (int_pair v) as [[a b]|e] eqn:Hp; cbn [mbind result_bind].
    - right. eexists. split; [reflexivity|]. repeat split; congruence.
    - left. now rewrite (int_pair_raise _ _ Hp). }
  destruct (contains "y=" line) eqn:Hy.
  { destruct (after_key_Ok "y=" line) as (v & ->). cbn [mbind result_bind].
    destruct (int_pair v) as [[a b]|e] eqn:Hp; cbn [mbind result_bind].
    - right. eexists. split; [reflexivity|]. repeat split; congruence.
    - left. now rewrite (int_pair_raise _ _ Hp). }
  destruct (contains "orientation=" line) eqn:Ho.
  { destruct (after_key_Ok "orientation=" line) as (v & ->). cbn [mbind result_bind].
    right. eexists. split; [reflexivity|]. repeat split; congruence. }
  right. exists st. now repeat split.
Qed.

Lemma pcs_read_lines_spec lines : forall st,
  pcs_read_lines lines st = Raise ValueError \/
  exists st',
    pcs_read_lines lines st = Ok st' /\
    (Forall (fun l => contains "x=" l = false) lines ->
       l_x0 st' = l_x0 st /\ l_x1 st' = l_x1 st) /\
    (Forall (fun l => contains "y=" l = false) lines ->
       l_y0 st' = l_y0 st /\ l_y1 st' = l_y1 st) /\
    (Forall (fun l => contains "orientation=" l = false) lines ->
       l_orientation st' = l_orientation st).
Proof.
  induction lines as [|line lines IH]; intros st.
  - right. exists st. now repeat split.
  - cbn [pcs_read_lines].
    destruct (pcs_read_line_spec line st) as [-> | (st1 & -> & K1 & K2 & K3)];
      cbn [mbind result_bind]; [now left|].
    destruct (IH st1) as [-> | (st' & -> & I1 & I2 & I3)]; [now left|].
    right. exists st'. split; [reflexivity|].
    split; [|split]; intros HF; apply Forall_cons in HF as [Hc HF].
    + destruct (I1 HF) as [-> ->]. now apply K1.
    + destruct (I2 HF) as [-> ->]. now apply K2.
    + rewrite (I3 HF). now apply K3.
Qed.

Lemma Exists_or_Forall (f : string -> bool) (l : list string) :
  Exists (fun x => f x = true) l \/ Forall (fun x => f x = false) l.
Proof.
  induction l as [|x l [IH | IH]].
  - right. constructor.
  - left. now apply Exists_cons_tl.
  - destruct (f x) eqn:Hx; [left; now apply Exists_cons_hd | right; now constructor].
Qed.

(** X3. On a file that exists, [load_pcs_line] never returns [None] and
    raises nothing from its loop but [ValueError]; it returns a line only
    if the file has a line for each of [x=], [y=] and [orientation=]; with
    no [x=] line the call ends in the [UnboundLocalError] of [x0], unless
    another line's [ValueError] came first. *)
Theorem pcs_load_on_any_file filename color id (fs : gmap string string) text :
  fs !! filename = Some text ->
  load_pcs_line filename color id fs <> Returns None
  /\ (forall e, load_pcs_line filename color id fs = Raises e -> e = ValueError)
  /\ (forall l, load_pcs_line filename color id fs = Returns (Some l) ->
        Exists (fun ln => contains "x=" ln = true) (readlines (universal_newlines text)) /\
        Exists (fun ln => contains "y=" ln = true) (readlines (universal_newlines text)) /\
        Exists (fun ln => contains "orientation=" ln = true)
          (readlines (universal_newlines text)))
  /\ (Forall (fun ln => contains "x=" ln = false) (readlines (universal_newlines text)) ->
        load_pcs_line filename color id fs = RaisesUnboundLocal "x0" \/
        load_pcs_line filename color id fs = Raises ValueError).
Proof.
  intros Hfs. unfold load_pcs_line. rewrite Hfs.
  destruct (pcs_read_lines_spec (readlines (universal_newlines text)) pcs_init)
    as [-> | (st & -> & I1 & I2 & I3)].
  { split; [discriminate|]. split; [now intros e [= <-]|].
    split; [discriminate | now right]. }
  split; [unfold construct; repeat case_match; discriminate|].
  split; [unfold construct; repeat case_match; discriminate|].
  split.
  - intros l Hl.
    split; [|split].
    + destruct (Exists_or_Forall (contains "x=") (readlines (universal_newlines text)))
        as [H | H]; [exact H|].
      destruct (I1 H) as [H0 _]. unfold construct in Hl. rewrite H0 in Hl. discriminate.
    + destruct (Exists_or_Forall (contains "y=") (readlines (universal_newlines text)))
        as [H | H]; [exact H|].
      destruct (I2 H) as [H0 _]. unfold construct in Hl. rewrite H0 in Hl.
      destruct (l_x0 st); discriminate.
    + destruct (Exists_or_Forall (contains "orientation=")
                  (readlines (universal_newlines text))) as [H | H]; [exact H|].
      pose proof (I3 H) as H0. unfold construct in Hl. rewrite H0 in Hl.
      destruct (l_x0 st), (l_y0 st), (l_x1 st), (l_y1 st); discriminate.
  - intros H. left. destruct (I1 H) as [H0 _]. unfold construct. now rewrite H0.
Qed.

(** The file without its [x=] line: the call ends in an error. *)
Lemma pcs_load_on_any_file_witness :
  load_pcs_line "pcs.txt" "red" "l1" {["pcs.txt" := pcs_text_without_x]}
  = RaisesUnboundLocal "x0" \/
  load_pcs_line "pcs.txt" "red" "l1" {["pcs.txt" := pcs_text_without_x]}
  = Raises ValueError.
Proof.
  apply (proj2 (proj2 (proj2 (pcs_load_on_any_file "pcs.txt" "red" "l1"
           {["pcs.txt" := pcs_text_without_x]} pcs_text_without_x
           (lookup_singleton_eq _ _))))).
  repeat (constructor; [reflexivity|]). constructor.
Defined.

(** ** Crontab lines *)

Lemma digit_char_not_space d : isspace (digit_char d) = false.
Proof.
  destruct d as [|p|p]; try reflexivity.
  do 4 (destruct p as [p|p|]; try reflexivity).
Qed.

Lemma is_digit_not_space c : is_digit c = true -> isspace c = false.
Proof.
  destruct c as [[] [] [] [] [] [] [] []]; try discriminate; reflexivity.
Qed.

Lemma is_numeric_not_space c : is_numeric c = true -> isspace c = false.
Proof.
  destruct c as [[] [] [] [] [] [] [] []]; try discriminate; reflexivity.
Qed.

(** A first token, up to the space that follows it. *)
Lemma split_ws_token tok rest :
  tok <> EmptyString ->
  chars_in (fun c => negb (isspace c)) tok = true ->
  split_ws (tok +:+ String " " rest) = tok :: split_ws (String " " rest).
Proof.
  induction tok as [|c tok IH]; [congruence|]. intros _ Htok.
  cbn [chars_in] in Htok. apply andb_true_iff in Htok as [Hc Htok].
  apply negb_true_iff in Hc.
  destruct tok as [|c' tok].
  - cbn [String.append split_ws]. rewrite Hc. reflexivity.
  - change (String c (String c' tok) +:+ String " " rest)
      with (String c (String c' tok +:+ String " " rest)).
    cbn [split_ws]. rewrite Hc.
    change (String c' tok +:+ String " " rest)
      with (String c' (tok +:+ String " " rest)) at 1.
    cbn iota.
    pose proof Htok as Htok'. cbn [chars_in] in Htok'.
    apply andb_true_iff in Htok' as [Hc' _]. apply negb_true_iff in Hc'.
    rewrite Hc'. change (String c' (tok +:+ String " " rest))
      with (String c' tok +:+ String " " rest).
    now rewrite IH.
Qed.

Lemma split_ws_space rest : split_ws (String " " rest) = split_ws rest.
Proof. reflexivity. Qed.

Lemma pad2_not_space n : chars_in (fun c => negb (isspace c)) (pad2 n) = true.
Proof. unfold pad2. cbn [chars_in]. now rewrite !digit_char_not_space. Qed.

Lemma pad2_nonempty n : pad2 n <> EmptyString.
Proof. discriminate. Qed.

Lemma pad2_not_star n : String.eqb (pad2 n) "*" = false.
Proof. unfold pad2. cbn. now destruct (Ascii.eqb _ _). Qed.

Lemma digit_char_not_hash d : Ascii.eqb (digit_char d) "#" = false.
Proof.
  destruct d as [|p|p]; try reflexivity.
  do 4 (destruct p as [p|p|]; try reflexivity).
Qed.

(** The line written for a [datetime] reads as its hour and minute. *)
Lemma cron_entry_datetime t command :
  valid t -> cron_entry (cron_line (TimeDatetime t) command) = Ok (hour t, minute t).
Proof.
  intros (_ & _ & _ & Hh & Hm & _). unfold cron_line, strftime_M_H.
  rewrite !append_assoc.
  change (pad2 (minute t) +:+ " " +:+ pad2 (hour t) +:+ " * * * " +:+ command +:+ nl)
    with (pad2 (minute t) +:+ String " " (pad2 (hour t)
            +:+ String " " ("* * * " +:+ command +:+ nl))).
  unfold cron_entry.
  rewrite split_ws_token, split_ws_space by (apply pad2_nonempty || apply pad2_not_space).
  rewrite split_ws_token by (apply pad2_nonempty || apply pad2_not_space).
  cbn [take]. rewrite pad2_not_star. cbn [mbind result_bind].
  unfold pad2 at 1. cbn [String.append]. rewrite digit_char_not_hash.
  cbn [mbind result_bind field_int]. now rewrite !int_pad2 by lia.
Qed.

Lemma cron_entry_every z command :
  cron_entry (cron_line (TimeStr ("*/" +:+ str_int z +:+ " * * * *")) command) = Ok (0, z).
Proof.
  unfold cron_line. rewrite !append_assoc.
  replace ("*/" +:+ str_int z +:+ " * * * *" +:+ " " +:+ command +:+ nl)
    with (("*/" +:+ str_int z) +:+ String " " ("*" +:+ String " " ("* * * " +:+ command +:+ nl)))
    by now rewrite !append_assoc.
  assert (Htok : chars_in (fun c => negb (isspace c)) ("*/" +:+ str_int z) = true).
  { rewrite chars_in_app. cbn [chars_in andb negb].
    apply (chars_in_mono is_numeric); [|apply str_int_numeric].
    intros c Hc. now rewrite is_numeric_not_space. }
  unfold cron_entry.
  rewrite split_ws_token, split_ws_space by (discriminate || exact Htok).
  rewrite split_ws_token by (discriminate || reflexivity).
  cbn [take]. rewrite take_0. change (String.eqb "*" "*") with true. cbn iota.
  change (String.eqb ("*/" +:+ str_int z) "0") with false. cbn iota.
  change (split "/" ("*/" +:+ str_int z))
    with (split "/" ("*" +:+ String "/" (str_int z))).
  rewrite split_sep, split_absent by (reflexivity || now apply str_int_occurs).
  cbn [index_last last mbind result_bind String.append Ascii.eqb Bool.eqb field_int].
  now rewrite int_str_int.
Qed.

Lemma cron_entry_hourly command :
  cron_entry (cron_line (TimeStr "0 * * * *") command) = Ok (0, 60).
Proof.
  unfold cron_line. rewrite !append_assoc.
  change ("0 * * * *" +:+ " " +:+ command +:+ nl)
    with ("0" +:+ String " " ("*" +:+ String " " ("* * * " +:+ command +:+ nl))).
  unfold cron_entry.
  rewrite split_ws_token, split_ws_space by (discriminate || reflexivity).
  rewrite split_ws_token by (discriminate || reflexivity).
  reflexivity.
Qed.

(** A line that starts with a hash and has two words or more reads as
    [(0, 0)], whatever the words. *)
Lemma cron_entry_comment rest a b ws :
  split_ws (String "#" rest) = a :: b :: ws ->
  cron_entry (String "#" rest) = Ok (0, 0).
Proof.
  intros Hs. unfold cron_entry. rewrite Hs. cbn [take].
  destruct (String.eqb b "*"); [destruct (String.eqb a "0")|]; try reflexivity.
  destruct (split_nonempty "/" a) as (w & ws' & ->).
  unfold index_last. destruct (last (w :: ws')) eqn:Hl; [reflexivity|].
  apply last_None in Hl. discriminate.
Qed.

Lemma cron_entry_raise line e : cron_entry line = Raise e -> e = ValueError.
Proof.
  unfold cron_entry.
  destruct (take 2 (split_ws line)) as [|minute [|hour [|? ?]]] eqn:Ht;
    try (now intros [= <-]).
  assert (Hne : line <> EmptyString) by (intros ->; discriminate).
  destruct line as [|c line]; [congruence|].
  assert (Hfirst : exists f1 f2,
    (if String.eqb hour "*" then
       if String.eqb minute "0" then Ok (FInt 60, FInt 0)
       else m ← index_last (split "/" minute); Ok (FStr m, FInt 0)
     else Ok (FStr minute, FStr hour)) = Ok (f1, f2)).
  { destruct (String.eqb hour "*"); [destruct (String.eqb minute "0")|];
      try (now eexists _, _).
    destruct (index_last_Ok (split "/" minute)) as (m & ->); [|now eexists _, _].
    destruct (split_nonempty "/" minute) as (w & ws & ->). discriminate. }
  destruct Hfirst as (f1 & f2 & ->). cbn [mbind result_bind].
  destruct (Ascii.eqb c "#"); cbn [mbind result_bind field_int]; [discriminate|].
  destruct (field_int f2) as [h|e2] eqn:H2; cbn [mbind result_bind].
  - destruct (field_int f1) as [m|e1] eqn:H1; cbn [mbind result_bind]; [discriminate|].
    intros [= <-]. destruct f1; [now apply int_raise in H1 | discriminate].
  - intros [= <-]. destruct f2; [now apply int_raise in H2 | discriminate].
Qed.

(** ** The crontab reader, line by line *)

Lemma cron_read_line_entry line e cmds :
  cron_entry line = Ok e ->
  forall m, exists m',
    cron_read_line line cmds m = Ok m' /\
    forall k, m' !! k = if bool_decide (k ∈ cmds) && contains k line then Some e else m !! k.
Proof.
  intros He. induction cmds as [|cmd cmds IH]; intros m.
  - exists m. split; [reflexivity|]. intros k.
    rewrite bool_decide_eq_false_2 by apply not_elem_of_nil. reflexivity.
  - cbn [cron_read_line]. rewrite He. cbn [mbind result_bind].
    destruct (contains cmd line) eqn:Hc.
    + destruct (IH (<[cmd := e]> m)) as (m' & -> & Hm'). exists m'.
      split; [reflexivity|]. intros k. rewrite Hm'.
      destruct (decide (k = cmd)) as [-> | Hne].
      * rewrite Hc, lookup_insert_eq, (bool_decide_eq_true_2 (cmd ∈ cmd :: cmds))
          by apply list_elem_of_here.
        now destruct (bool_decide (cmd ∈ cmds)).
      * rewrite lookup_insert_ne by congruence.
        rewrite (bool_decide_ext (k ∈ cmd :: cmds) (k ∈ cmds)); [reflexivity|].
        rewrite elem_of_cons. tauto.
    + destruct (IH m) as (m' & -> & Hm'). exists m'.
      split; [reflexivity|]. intros k. rewrite Hm'.
      destruct (decide (k = cmd)) as [-> | Hne].
      * rewrite Hc, !andb_false_r. reflexivity.
      * rewrite (bool_decide_ext (k ∈ cmd :: cmds) (k ∈ cmds)); [reflexivity|].
        rewrite elem_of_cons. tauto.
Qed.

Lemma cron_read_line_none line cmds m :
  Forall (fun c => contains c line = false) cmds -> cron_read_line line cmds m = Ok m.
Proof.
  induction 1 as [|cmd cmds Hc _ IH]; [reflexivity|].
  cbn [cron_read_line]. now rewrite Hc.
Qed.

Lemma cron_read_line_raises line e cmds : forall m,
  cron_entry line = Raise e ->
  Exists (fun c => contains c line = true) cmds ->
  cron_read_line line cmds m = Raise e.
Proof.
  intros m He Hex. revert m. induction Hex as [cmd cmds Hc | cmd cmds _ IH]; intros m.
  - cbn [cron_read_line]. now rewrite Hc, He.
  - cbn [cron_read_line]. rewrite He. cbn [mbind result_bind].
    destruct (contains cmd line); [reflexivity | apply IH].
Qed.

(** A line the loop gets through: its entry can be read, or it holds none
    of the commands. *)
Lemma cron_read_line_through line cmds m :
  (exists e, cron_entry line = Ok e) \/ Forall (fun c => contains c line = false) cmds ->
  exists m',
    cron_read_line line cmds m = Ok m' /\
    (forall k, k ∉ cmds \/ contains k line = false -> m' !! k = m !! k) /\
    (forall k, is_Some (m' !! k) -> is_Some (m !! k) \/ k ∈ cmds).
Proof.
  intros [(e & He) | Hnone].
  - destruct (cron_read_line_entry line e cmds He m) as (m' & Hr & Hm').
    exists m'. split; [exact Hr|]. split; intros k; rewrite Hm'.
    + intros [Hk | Hk]; [now rewrite bool_decide_eq_false_2 | now rewrite Hk, andb_false_r].
    + destruct (bool_decide_reflect (k ∈ cmds)); [now right | now left].
  - exists m. split; [now apply cron_read_line_none|]. split; [reflexivity | now left].
Qed.

Lemma cron_read_lines_through lines cmds :
  Forall (passable cmds) lines ->
  forall m, exists m',
    cron_read_lines lines cmds m = Ok m' /\
    (forall k, k ∉ cmds \/ Forall (fun l => contains k l = false) lines ->
       m' !! k = m !! k) /\
    (forall k, is_Some (m' !! k) -> is_Some (m !! k) \/ k ∈ cmds).
Proof.
  induction 1 as [|line lines Hl _ IH]; intros m.
  - exists m. split; [reflexivity|]. split; [reflexivity | now left].
  - cbn [cron_read_lines].
    destruct (cron_read_line_through line cmds m Hl) as (m1 & -> & K1 & D1).
    cbn [mbind result_bind].
    destruct (IH m1) as (m' & -> & K & D). exists m'. split; [reflexivity|]. split.
    + intros k Hk. rewrite K, K1; [reflexivity | |].
      * destruct Hk as [Hk | Hk]; [now left | right]. now apply Forall_cons in Hk as [? _].
      * destruct Hk as [Hk | Hk]; [now left | right]. now apply Forall_cons in Hk as [_ ?].
    + intros k Hk. destruct (D k Hk) as [H1 | H1]; [apply D1, H1 | now right].
Qed.

Lemma cron_read_lines_app l1 l2 cmds m :
  cron_read_lines (l1 ++ l2) cmds m = cron_read_lines l1 cmds m ≫= cron_read_lines l2 cmds.
Proof.
  revert m. induction l1 as [|l l1 IH]; intros m; [reflexivity|].
  cbn [app cron_read_lines]. destruct (cron_read_line l cmds m); cbn; [apply IH | reflexivity].
Qed.

(** The pair stored under a command is that of the last line holding it. *)
Lemma cron_read_lines_last l1 line e l2 cmds k m :
  Forall (passable cmds) (l1 ++ line :: l2) ->
  cron_entry line = Ok e -> k ∈ cmds -> contains k line = true ->
  Forall (fun l => contains k l = false) l2 ->
  exists m', cron_read_lines (l1 ++ line :: l2) cmds m = Ok m' /\ m' !! k = Some e.
Proof.
  intros Hall He Hk Hc Hl2.
  apply Forall_app in Hall as [H1 H2]. apply Forall_cons in H2 as [_ H2].
  rewrite cron_read_lines_app.
  destruct (cron_read_lines_through l1 cmds H1 m) as (m1 & -> & _).
  cbn [mbind result_bind cron_read_lines].
  destruct (cron_read_line_entry line e cmds He m1) as (m2 & -> & Hm2).
  cbn [mbind result_bind].
  destruct (cron_read_lines_through l2 cmds H2 m2) as (m' & -> & K & _).
  exists m'. split; [reflexivity|].
  rewrite K by now right. rewrite Hm2, Hc, bool_decide_eq_true_2 by assumption.
  reflexivity.
Qed.

(** ** The crontab file *)

Lemma universal_newlines_app s t :
  occurs CR s = false -> universal_newlines (s +:+ t) = s +:+ universal_newlines t.
Proof.
  induction s as [|c s IH]; [reflexivity|]. cbn [occurs].
  intros [Hc Hs]%orb_false_iff. cbn [String.append universal_newlines].
  now rewrite Hc, (IH Hs).
Qed.

Lemma cron_lines_lookup cmds : forall times j l,
  cron_lines cmds times !! j = Some l <->
  exists c time, cmds !! j = Some c /\ times !! j = Some time /\ l = cron_line time c.
Proof.
  induction cmds as [|c cmds IH]; intros times j l.
  - cbn. split; [discriminate | now intros (? & ? & ? & _)].
  - destruct times as [|time times].
    + cbn. split; [discriminate | intros (? & ? & _ & ? & _); discriminate].
    + cbn [cron_lines]. destruct j as [|j]; cbn [lookup list_lookup].
      * split; [intros [= <-]; now eexists _, _ | now intros (? & ? & [= <-] & [= <-] & ->)].
      * apply IH.
Qed.

Lemma pad2_occurs n c : is_digit c = false -> occurs c (pad2 n) = false.
Proof. intros Hc. apply (chars_in_occurs is_digit); [apply pad2_digits | exact Hc]. Qed.

Lemma cron_line_is_line time c : plain c -> plain_time time -> is_line (cron_line time c).
Proof.
  intros [Hc _] Ht. unfold cron_line. exists
    (match time with
     | TimeDatetime t => strftime_M_H t +:+ " * * * "
     | TimeStr s => s +:+ " "
     end +:+ c).
  split; [reflexivity|]. rewrite occurs_app, Hc, orb_false_r.
  destruct time as [t|s].
  - unfold strftime_M_H. rewrite !occurs_app.
    now rewrite !pad2_occurs by reflexivity.
  - destruct Ht as [Hs _]. now rewrite occurs_app, Hs.
Qed.

Lemma cron_line_no_CR time c : plain c -> plain_time time -> occurs CR (cron_line time c) = false.
Proof.
  intros [_ Hc] Ht. unfold cron_line. rewrite !occurs_app, Hc.
  destruct time as [t|s].
  - unfold strftime_M_H. rewrite !occurs_app.
    now rewrite !pad2_occurs by reflexivity.
  - destruct Ht as [_ Hs]. now rewrite occurs_app, Hs.
Qed.

Lemma cron_lines_Forall (P : string -> Prop) cmds : forall times,
  (forall j c time, cmds !! j = Some c -> times !! j = Some time -> P (cron_line time c)) ->
  Forall P (cron_lines cmds times).
Proof.
  intros times H. apply Forall_lookup. intros j l Hl.
  apply cron_lines_lookup in Hl as (c & time & Hc & Ht & ->). eauto.
Qed.

Lemma cron_file_lines cmds times :
  Forall plain cmds -> Forall plain_time times ->
  readlines (universal_newlines (written (cron_title :: cron_path :: cron_lines cmds times)))
  = cron_title :: cron_path :: cron_lines cmds times.
Proof.
  intros Hc Ht.
  assert (Hp : forall j c time, cmds !! j = Some c -> times !! j = Some time ->
                 plain c /\ plain_time time).
  { intros j c time Hj Hj'. split; [eapply Forall_lookup_1 in Hc | eapply Forall_lookup_1 in Ht];
      eassumption. }
  rewrite universal_newlines_id.
  - apply readlines_written. repeat apply Forall_cons_2.
    + apply is_line_app; [reflexivity | apply is_line_nl].
    + apply is_line_app; [reflexivity | apply is_line_nl].
    + apply cron_lines_Forall. intros j c time Hj Hj'.
      destruct (Hp j c time Hj Hj'). now apply cron_line_is_line.
  - apply occurs_written. repeat apply Forall_cons_2; try reflexivity.
    apply cron_lines_Forall. intros j c time Hj Hj'.
    destruct (Hp j c time Hj Hj'). now apply cron_line_no_CR.
Qed.

Lemma startswith_app p t : startswith (p +:+ t) p = true.
Proof.
  induction p as [|a p IH]; [reflexivity|].
  cbn [String.append startswith]. now rewrite Ascii.eqb_refl, IH.
Qed.

Lemma contains_startswith k s : startswith s k = true -> contains k s = true.
Proof. intros H. destruct s; cbn [contains]; now rewrite H. Qed.

Lemma contains_app_r k s t : contains k t = true -> contains k (s +:+ t) = true.
Proof.
  intros H. induction s as [|a s IH]; [exact H|].
  cbn [String.append contains]. rewrite IH. apply orb_true_r.
Qed.

(** The line written for a command holds the command. *)
Lemma cron_line_holds_command time c : contains c (cron_line time c) = true.
Proof.
  unfold cron_line. rewrite append_assoc.
  apply contains_app_r, contains_startswith, startswith_app.
Qed.

Lemma write_crontab_lookup filename cmds times (fs : gmap string string) :
  length cmds = length times ->
  write_script_crontab filename cmds times fs !! filename
  = Some (written (cron_title :: cron_path :: cron_lines cmds times)).
Proof.
  intros Hlen. unfold write_script_crontab.
  rewrite (proj2 (Nat.eqb_eq _ _) Hlen). cbn [negb]. apply lookup_insert_eq.
Qed.

Lemma cron_round_trip_general filename cmds times (fs : gmap string string) :
  length cmds = length times ->
  Forall plain cmds -> Forall plain_time times ->
  Forall (fun c => contains c cron_path = false) cmds ->
  Forall (fun l => exists e, cron_entry l = Ok e) (cron_lines cmds times) ->
  exists m,
    read_script_crontab filename cmds (write_script_crontab filename cmds times fs) = Ok m /\
    (forall k, k ∉ cmds -> m !! k = None) /\
    (forall i c time e,
       cmds !! i = Some c -> times !! i = Some time ->
       cron_entry (cron_line time c) = Ok e ->
       (forall j c' time', (i < j)%nat -> cmds !! j = Some c' -> times !! j = Some time' ->
          contains c (cron_line time' c') = false) ->
       m !! c = Some e).
Proof.
  intros Hlen Hc Ht Hpath Hent.
  unfold read_script_crontab. rewrite write_crontab_lookup by assumption.
  rewrite cron_file_lines by assumption.
  assert (Hall : Forall (passable cmds) (cron_title :: cron_path :: cron_lines cmds times)).
  { repeat apply Forall_cons_2.
    - left. now exists (0, 0).
    - now right.
    - eapply Forall_impl; [exact Hent|]. intros l He. now left. }
  destruct (cron_read_lines_through _ cmds Hall ∅) as (m & Hr & K & _).
  exists m. split; [exact Hr|]. split.
  - intros k Hk. rewrite K by now left. apply lookup_empty.
  - intros i c time e Hi Hi' He Hlater.
    assert (Hl : cron_lines cmds times !! i = Some (cron_line time c))
      by (apply cron_lines_lookup; exists c, time; auto).
    pose proof (take_drop_middle _ _ _ Hl) as Hsplit.
    destruct (cron_read_lines_last
                (cron_title :: cron_path :: take i (cron_lines cmds times))
                (cron_line time c) e (drop (S i) (cron_lines cmds times)) cmds c ∅)
      as (m' & Hr' & Hm').
    + cbn [app]. now rewrite Hsplit.
    + exact He.
    + eapply list_elem_of_lookup_2, Hi.
    + apply cron_line_holds_command.
    + apply Forall_lookup. intros j l Hj. rewrite lookup_drop in Hj.
      apply cron_lines_lookup in Hj as (c' & time' & Hj1 & Hj2 & ->).
      apply (Hlater (S i + j)%nat); [lia | assumption..].
    + cbn [app] in Hr'. rewrite Hsplit in Hr'. congruence.
Qed.

(** X4. Commands written with [datetime] times and read back with the
    same list of commands: the reader returns a dictionary with no key
    outside the list, and under each command the hour and minute of its
    time, provided no command holds a line break or occurs in the PATH
    line, and no later line of the file holds the command. *)
Theorem crontab_write_read_round_trip filename cmds (ts : list datetime)
    (fs : gmap string string) :
  length cmds = length ts ->
  Forall valid ts ->
  Forall plain cmds ->
  Forall (fun c => contains c cron_path = false) cmds ->
  exists m,
    read_script_crontab filename cmds
      (write_script_crontab filename cmds (TimeDatetime <$> ts) fs) = Ok m /\
    (forall k, k ∉ cmds -> m !! k = None) /\
    (forall i c t,
       cmds !! i = Some c -> ts !! i = Some t ->
       (forall j c' t', (i < j)%nat -> cmds !! j = Some c' -> ts !! j = Some t' ->
          contains c (cron_line (TimeDatetime t') c') = false) ->
       m !! c = Some (hour t, minute t)).
Proof.
  intros Hlen Hv Hc Hpath.
  destruct (cron_round_trip_general filename cmds (TimeDatetime <$> ts) fs)
    as (m & Hr & Hdom & Hval).
  - now rewrite length_fmap.
  - exact Hc.
  - apply Forall_fmap, Forall_forall. now intros t _.
  - exact Hpath.
  - apply cron_lines_Forall. intros j c time Hj Hj'.
    rewrite list_lookup_fmap in Hj'. destruct (ts !! j) as [t|] eqn:Ht; [|discriminate].
    injection Hj' as <-. eexists. apply cron_entry_datetime.
    eapply Forall_lookup_1 in Hv; eassumption.
  - exists m. split; [exact Hr|]. split; [exact Hdom|].
    intros i c t Hi Hi' Hlater.
    apply (Hval i c (TimeDatetime t)); [exact Hi | now rewrite list_lookup_fmap, Hi' | |].
    + apply cron_entry_datetime. eapply Forall_lookup_1 in Hv; eassumption.
    + intros j c' time' Hij Hj Hj'. rewrite list_lookup_fmap in Hj'.
      destruct (ts !! j) as [t'|] eqn:Ht'; [|discriminate]. injection Hj' as <-.
      now apply (Hlater j).
Qed.

Lemma plain_start_cmd : plain start_cmd.
Proof. now split. Defined.

Lemma plain_stop_cmd : plain stop_cmd.
Proof. now split. Defined.

(** A start at 06:05 and a stop at 18:30. *)
Lemma crontab_write_read_round_trip_witness :
  exists m,
    read_script_crontab "crontab.txt" [start_cmd; stop_cmd]
      (write_script_crontab "crontab.txt" [start_cmd; stop_cmd]
         (TimeDatetime <$> [at_time 6 5; at_time 18 30]) ∅) = Ok m /\
    (forall k, k ∉ [start_cmd; stop_cmd] -> m !! k = None) /\
    (forall i c t,
       [start_cmd; stop_cmd] !! i = Some c -> [at_time 6 5; at_time 18 30] !! i = Some t ->
       (forall j c' t', (i < j)%nat -> [start_cmd; stop_cmd] !! j = Some c' ->
          [at_time 6 5; at_time 18 30] !! j = Some t' ->
          contains c (cron_line (TimeDatetime t') c') = false) ->
       m !! c = Some (hour t, minute t)).
Proof.
  apply (crontab_write_read_round_trip "crontab.txt" [start_cmd; stop_cmd]
           [at_time 6 5; at_time 18 30] ∅).
  - reflexivity.
  - repeat constructor; apply valid_at_time; lia.
  - repeat constructor; (apply plain_start_cmd || apply plain_stop_cmd).
  - repeat constructor.
Defined.

(** X5. What the reader makes of the other kinds of line the writer can
    produce, whatever the command: a time string [*/n * * * *] (every n
    minutes) reads as [(0, n)], the time string [0 * * * *] (every hour)
    as [(0, 60)], and a line that starts with a hash and has at least two
    words as [(0, 0)], whatever the words are. *)
Theorem crontab_entry_of_string_times :
  (forall z command,
     cron_entry (cron_line (TimeStr ("*/" +:+ str_int z +:+ " * * * *")) command) = Ok (0, z))
  /\ (forall command, cron_entry (cron_line (TimeStr "0 * * * *") command) = Ok (0, 60))
  /\ (forall rest a b ws,
        split_ws (String "#" rest) = a :: b :: ws ->
        cron_entry (String "#" rest) = Ok (0, 0)).
Proof.
  split; [exact cron_entry_every|]. split; [exact cron_entry_hourly|].
  exact cron_entry_comment.
Qed.

(** The title line of the file itself is such a comment. *)
Lemma crontab_entry_of_string_times_witness : cron_entry cron_title = Ok (0, 0).
Proof.
  apply (proj2 (proj2 crontab_entry_of_string_times)
           (" Crontab schedule file written by pycam" +:+ nl)
           "#" "Crontab" ["schedule"; "file"; "written"; "by"; "pycam"]).
  reflexivity.
Defined.

(** ** The crontab reader on any file *)

Lemma cron_read_line_any line cmds m :
  cron_read_line line cmds m = Raise ValueError \/
  exists m',
    cron_read_line line cmds m = Ok m' /\
    forall k, k ∉ cmds \/ contains k line = false -> m' !! k = m !! k.
Proof.
  destruct (cron_entry line) as [e|e] eqn:He.
  - right. destruct (cron_read_line_through line cmds m) as (m' & Hr & K & _);
      [left; now exists e|]. now exists m'.
  - destruct (Exists_or_Forall (fun c => contains c line) cmds) as [Hex | Hall].
    + left. rewrite (cron_read_line_raises line e cmds m He Hex).
      now rewrite (cron_entry_raise _ _ He).
    + right. destruct (cron_read_line_through line cmds m) as (m' & Hr & K & _);
        [now right|]. now exists m'.
Qed.

Lemma cron_read_lines_any lines cmds : forall m,
  cron_read_lines lines cmds m = Raise ValueError \/
  exists m',
    cron_read_lines lines cmds m = Ok m' /\
    forall k, k ∉ cmds \/ Forall (fun l => contains k l = false) lines -> m' !! k = m !! k.
Proof.
  induction lines as [|line lines IH]; intros m.
  - right. now exists m.
  - cbn [cron_read_lines].
    destruct (cron_read_line_any line cmds m) as [-> | (m1 & -> & K1)];
      cbn [mbind result_bind]; [now left|].
    destruct (IH m1) as [-> | (m' & -> & K)]; [now left|].
    right. exists m'. split; [reflexivity|]. intros k Hk.
    rewrite K, K1; [reflexivity | |].
    + destruct Hk as [Hk | Hk]; [now left | right]. now apply Forall_cons in Hk as [? _].
    + destruct Hk as [Hk | Hk]; [now left | right]. now apply Forall_cons in Hk as [_ ?].
Qed.

(** X6. On any file that exists, [read_script_crontab] raises nothing but
    [ValueError], and the dictionary it returns has no entry for a string
    that is not among the commands asked for, nor for a command that no
    line of the file holds. *)
Theorem crontab_read_on_any_file filename cmds (fs : gmap string string) text :
  fs !! filename = Some text ->
  (forall e, read_script_crontab filename cmds fs = Raise e -> e = ValueError)
  /\ (forall m k,
        read_script_crontab filename cmds fs = Ok m ->
        k ∉ cmds \/
        Forall (fun l => contains k l = false) (readlines (universal_newlines text)) ->
        m !! k = None).
Proof.
  intros Hfs. unfold read_script_crontab. rewrite Hfs.
  destruct (cron_read_lines_any (readlines (universal_newlines text)) cmds ∅)
    as [-> | (m' & -> & K)].
  - split; [now intros e [= <-] | discriminate].
  - split; [discriminate|]. intros m k [= <-] Hk. rewrite K by exact Hk.
    apply lookup_empty.
Qed.

(** Asked for a command the file of the round trip does not hold. *)
Lemma crontab_read_on_any_file_witness :
  exists m,
    read_script_crontab "crontab.txt" ["reboot"]
      {["crontab.txt" := written (cron_title :: cron_path
                            :: cron_lines [start_cmd] [TimeDatetime (at_time 6 5)])]}
    = Ok m /\
    m !! "reboot" = None.
Proof.
  exists ∅. split; [reflexivity|].
  apply (proj2 (crontab_read_on_any_file "crontab.txt" ["reboot"]
                  {["crontab.txt" := written (cron_title :: cron_path
                      :: cron_lines [start_cmd] [TimeDatetime (at_time 6 5)])]}
                  (written (cron_title :: cron_path
                      :: cron_lines [start_cmd] [TimeDatetime (at_time 6 5)]))
                  (lookup_singleton_eq _ _)) ∅ "reboot").
  - reflexivity.
  - right. repeat (constructor; [reflexivity|]). constructor.
Defined.

(** X7. Reading back the writer's own file fails with [ValueError] as
    soon as one of the commands occurs in the PATH line the writer puts
    second: that line has one word, and the reader unpacks two. *)
Theorem crontab_command_in_path_line filename cmds times (fs : gmap string string) :
  length cmds = length times ->
  Exists (fun c => contains c cron_path = true) cmds ->
  read_script_crontab filename cmds (write_script_crontab filename cmds times fs)
  = Raise ValueError.
Proof.
  intros Hlen Hex. unfold read_script_crontab.
  rewrite write_crontab_lookup by assumption. cbn [written foldr].
  rewrite !universal_newlines_app by reflexivity.
  rewrite !readlines_line
    by (apply is_line_app; [reflexivity | apply is_line_nl]).
  cbn [cron_read_lines].
  destruct (cron_read_line_entry cron_title (0, 0) cmds eq_refl ∅) as (m1 & -> & _).
  cbn [mbind result_bind].
  now rewrite (cron_read_line_raises cron_path ValueError cmds m1 eq_refl Hex).
Qed.

(** The command [/usr/bin] is such a one. *)
Lemma crontab_command_in_path_line_witness :
  read_script_crontab "crontab.txt" ["/usr/bin"]
    (write_script_crontab "crontab.txt" ["/usr/bin"] [TimeStr "0 * * * *"] ∅)
  = Raise ValueError.
Proof.
  apply (crontab_command_in_path_line "crontab.txt" ["/usr/bin"] [TimeStr "0 * * * *"] ∅).
  - reflexivity.
  - apply Exists_cons_hd. reflexivity.
Defined.

(** * More on the schedule writer and reader *)

(** X8. Whatever the two datetimes of a single window are, on the same
    day or not, equal or not, the ON and OFF durations handed to the file
    add up to 24 hours. *)
Theorem single_window_always_a_day on off :
  (durations (single_segments on off) == 86400)%Q.
Proof.
  unfold single_segments, single_window, durations.
  destruct (0 <? sub off on); [|destruct (sub off on <? 0)];
    cbn [foldr snd]; rewrite ?Qplus_0_r.
  - apply seconds_pair.
  - rewrite Qplus_comm. apply seconds_pair.
  - reflexivity.
Qed.

Lemma sub_minutes a b : second a = 0 -> second b = 0 -> sub a b mod 60 = 0.
Proof.
  intros Ha Hb. unfold sub, secs. rewrite Ha, Hb.
  replace ((toordinal a - toordinal b) * 86400
           + (0 + minute a * 60 + hour a * 3600 - (0 + minute b * 60 + hour b * 3600)))
    with (((toordinal a - toordinal b) * 1440 + (minute a - minute b)
           + (hour a - hour b) * 60) * 60) by lia.
  apply Z.mod_mul. discriminate.
Qed.

Lemma printed_minutes_exact d : d mod 60 = 0 -> printed_minutes (hours_mins d) = d / 60.
Proof.
  intros Hd. rewrite printed_minutes_hours_mins.
  assert (Hr : d mod 3600 mod 60 = 0) by (Z.div_mod_to_equations; lia).
  rewrite Hr. change (2 * 0 ?= 60) with Lt. cbn iota. Z.div_mod_to_equations. lia.
Qed.

(** X9. For times given to the minute, as the hour and minute boxes of a
    form give them, the durations printed in the file add up to 24 hours
    exactly: the two of a single window, and the four of two windows,
    whether the windows overlap or not. *)
Theorem printed_durations_total_a_day :
  (forall on off,
     second on = 0 -> second off = 0 ->
     printed_total (single_segments on off) = 24 * 60)
  /\ (forall on off on_2 off_2,
        second on = 0 -> second off = 0 -> second on_2 = 0 -> second off_2 = 0 ->
        printed_total (dual_segments on off on_2 off_2) = 24 * 60).
Proof.
  split.
  - intros on off Hon Hoff. unfold single_segments, single_window, printed_total.
    pose proof (sub_minutes off on Hoff Hon) as H1.
    pose proof (sub_minutes on off Hon Hoff) as H2.
    destruct (0 <? sub off on); [|destruct (sub off on <? 0)]; cbn [foldr snd];
      [ | | reflexivity ];
      rewrite !printed_minutes_exact
        by (assumption || (unfold timedelta_hours; Z.div_mod_to_equations; lia));
      unfold timedelta_hours; Z.div_mod_to_equations; lia.
  - intros on off on_2 off_2 Hon Hoff Hon2 Hoff2.
    unfold dual_segments, arrange, printed_total.
    destruct (lt on on_2); [destruct (gt off on) | destruct (gt off_2 on_2)];
      unfold dual_window;
      match goal with |- context [gt ?a ?b] => destruct (gt a b) end;
      cbn [foldr snd];
      repeat match goal with
      | |- context [sub ?a ?b] =>
          lazymatch goal with
          | H : sub a b mod 60 = 0 |- _ => fail
          | _ => assert (sub a b mod 60 = 0) by (apply sub_minutes; assumption)
          end
      end;
      rewrite !printed_minutes_exact
        by (assumption || (unfold timedelta_hours; Z.div_mod_to_equations; lia));
      unfold timedelta_hours; Z.div_mod_to_equations; lia.
Qed.

(** On and off at 06:00 and 12:00, a second window 08:00 to 10:00 inside
    the first. *)
Lemma printed_durations_total_a_day_witness :
  printed_total (dual_segments (at_time 6 0) (at_time 12 0) (at_time 8 0) (at_time 10 0))
  = 24 * 60.
Proof.
  apply (proj2 printed_durations_total_a_day
           (at_time 6 0) (at_time 12 0) (at_time 8 0) (at_time 10 0)); reflexivity.
Defined.

(** X10. The two numbers of a segment line: the hours printed are the
    whole hours of the duration, the minutes printed lie between 0 and 60,
    and 60 is printed exactly when the duration is within half a minute of
    the next full hour (59 minutes 30 seconds or more past the hour). *)
Theorem printed_fields_of_a_duration (d : timedelta) :
  round_half_even (hours_mins d).1 = d / 3600
  /\ 0 <= round_half_even (hours_mins d).2 <= 60
  /\ (round_half_even (hours_mins d).2 = 60 <-> 3570 <= d mod 3600).
Proof.
  unfold hours_mins, divmod, total_seconds. cbn [fst snd].
  rewrite round_half_even_inject, round_half_even_ratio, Zeven_mod.
  change (60 * 60) with 3600.
  split; [reflexivity|].
  destruct (Z.compare_spec (2 * (d mod 3600 mod 60)) 60);
    try destruct (Z.eqb_spec ((d mod 3600 / 60) mod 2) 0);
    split; try split; intros; Z.div_mod_to_equations; lia.
Qed.

(** X11. When several lines of a schedule file hold [on_time=], the
    reader returns the hour and minute of the last of them. *)
Theorem reader_last_on_time_wins filename (fs : gmap string string) text
    before line after h m :
  fs !! filename = Some text ->
  readlines text = before ++ line :: after ->
  contains "on_time=" line = true ->
  hour_min line = Ok (h, m) ->
  Forall (fun l => contains "on_time=" l = false) after ->
  forall ret, read_witty_schedule_file filename fs = Ok ret ->
  exists off on_2 off_2, ret = Tuple (Some h, Some m) off on_2 off_2.
Proof.
  intros Hfs Hlines Hc Hhm Hafter ret. rewrite (read_unfold _ _ _ Hfs), Hlines.
  rewrite read_lines_app.
  destruct (read_lines before init) as [st1|e1]; cbn [mbind result_bind]; [|discriminate].
  cbn [read_lines]. unfold read_line at 1. rewrite Hc, Hhm. cbn [mbind result_bind].
  destruct (read_lines after _) as [st2|e2] eqn:Hr; cbn [mbind result_bind];
    [|discriminate].
  intros [= <-]. destruct (read_lines_keep _ _ _ Hr) as (K & _).
  destruct (K Hafter) as [-> ->]. now eexists _, _, _.
Qed.

(** Two [on_time=] lines, 06:00 and then 07:30: the reader returns 7, 30. *)
Lemma reader_last_on_time_wins_witness :
  exists off on_2 off_2,
    Tuple (Some 7, Some 30) (Some 18, Some 0) (None, None) (None, None)
    = Tuple (Some 7, Some 30) off on_2 off_2.
Proof.
  apply (reader_last_on_time_wins "schedule.wpi"
           {["schedule.wpi" := text_with_two_on_times]} text_with_two_on_times
           [title_line; "# on_time=06:00" +:+ nl; "# off_time=18:00" +:+ nl]
           ("# on_time=07:30" +:+ nl) [end_line] 7 30).
  - apply lookup_singleton_eq.
  - reflexivity.
  - reflexivity.
  - reflexivity.
  - repeat constructor.
  - unfold read_witty_schedule_file. rewrite lookup_singleton_eq. reflexivity.
Defined.
